(** * pygame.scrap: the clipboard binding of src_c/scrap.c

    A shallow embedding of the module-level state of scrap.c and of the
    eleven functions it registers in [scrap_builtins], followed by the
    properties of the specification that are about them.

    Conventions of the embedding.
    - The four file-scope statics become the record [ScrapState].
    - The platform shim (scrap_sdl2.c or scrap_win.c, textually included at
      lines 75-85) and the SDL clipboard-text primitives are not part of
      scrap.c; they are the fields of the record [Adapter], acting on an
      abstract platform state.
    - What the Python runtime decides (whether a deprecation warning is
      turned into an exception, whether a C string decodes as UTF-8,
      whether a dictionary lookup reports an error) is the record
      [Runtime], passed to every call.
    - Every function is a computation in the monad [M]: it receives the
      module state and the platform state and gives back either a Python
      object or a raised exception, with the two states as the call left
      them.  An early [return NULL] of the C code is [raise].
    - The string and bytes arguments of a function are the C values its
      PyArg_ParseTuple call produced; a call whose arguments do not
      convert (a wrong type, a string with an embedded NUL) is outside the
      model.  The integer of set_mode is the Python integer, and the one
      conversion failure modelled is the one that depends on its value.
    - Reference counting and allocation failure are outside the model. *)

From Stdlib Require Import ZArith List Bool Lia.
From Stdlib Require Import Strings.String Strings.Ascii Strings.Byte.
Import ListNotations.

Local Open Scope string_scope.
Local Open Scope Z_scope.

(** ** Python values and exceptions *)

Definition bytes := list byte.

Inductive PyObject : Type :=
| Py_None
| Py_Bool (b : bool)
| PyBytes (b : bytes)
| PyUnicode (s : string)
| PyList (l : list string).   (* a list of str objects *)

(** One constructor per place where scrap.c (or a macro it expands) sets an
    exception.  [ScrapNotInitialized] and [VideoNotInitialized] are both
    raised with the class pgExc_SDLError; they are kept apart from
    [SDLError] so that the origin of the failure is not confused with a
    platform message that happens to read the same. *)
Inductive PyExc : Type :=
| DeprecationWarning (msg : string)
| ScrapNotInitialized
| VideoNotInitialized
| SDLError (msg : string)
| ValueError (msg : string)
| SystemError (msg : string)
| OverflowError
| UnicodeDecodeError.

Inductive ExcClass : Type :=
| PyExc_DeprecationWarning | pgExc_SDLError | PyExc_ValueError
| PyExc_SystemError | PyExc_OverflowError | PyExc_UnicodeDecodeError.

Definition exc_class (e : PyExc) : ExcClass :=
  match e with
  | DeprecationWarning _ => PyExc_DeprecationWarning
  | ScrapNotInitialized | VideoNotInitialized | SDLError _ => pgExc_SDLError
  | ValueError _ => PyExc_ValueError
  | SystemError _ => PyExc_SystemError
  | OverflowError => PyExc_OverflowError
  | UnicodeDecodeError => PyExc_UnicodeDecodeError
  end.

Inductive Outcome (A : Type) : Type :=
| Return (a : A)
| Raise (e : PyExc).
Arguments Return {A} a.
Arguments Raise {A} e.

(** ** The dictionaries behind [_clipdata] and [_selectiondata]

    A Python dict keeps its keys in insertion order and [PyDict_Keys]
    exposes that order, so a dictionary is an association list without
    repeated keys: setting an existing key replaces its value in place, a
    new key goes to the end. *)

Definition PyDict := list (string * bytes).

Definition PyDict_New : PyDict := [].

Fixpoint PyDict_SetItem (d : PyDict) (k : string) (v : bytes) : PyDict :=
  match d with
  | [] => [(k, v)]
  | (k', v') :: d' =>
      if String.eqb k k' then (k', v) :: d'
      else (k', v') :: PyDict_SetItem d' k v
  end.

Fixpoint PyDict_GetItem (d : PyDict) (k : string) : option bytes :=
  match d with
  | [] => None
  | (k', v') :: d' => if String.eqb k k' then Some v' else PyDict_GetItem d' k
  end.

Definition PyDict_Keys (d : PyDict) : PyObject :=
  PyList (map fst d).

(** ** The Python runtime, as far as scrap.c consults it *)

Record Runtime : Type := {
  (* PyErr_WarnEx(...) == -1: the warning filter turns the deprecation
     warning into an exception. *)
  warn_raises : bool;
  (* PyUnicode_FromString succeeds on this C string (it is valid UTF-8). *)
  utf8_valid : string -> bool;
  (* PyDict_GetItemWithError comes back NULL with an exception set. *)
  getitem_error : string -> bool
}.

Definition PyUnicode_FromString (rt : Runtime) (s : string) : option string :=
  if utf8_valid rt s then Some s else None.

Definition is_ascii (s : string) : bool :=
  forallb (fun c => (Z.of_nat (nat_of_ascii c) <? 128)) (list_ascii_of_string s).

Definition PyUnicode_DecodeASCII (s : string) : option string :=
  if is_ascii s then Some s else None.

(** The value and the state of the error indicator after the call. *)
Definition PyDict_GetItemWithError (rt : Runtime) (d : PyDict) (key : string)
  : option bytes * bool :=
  if getitem_error rt key then (None, true) else (PyDict_GetItem d key, false).

(** [PyDict_SetItemString] builds the key with [PyUnicode_FromString] and
    gives up, leaving the dictionary alone, when that fails; scrap.c does
    not look at its return value. *)
Definition PyDict_SetItemString (rt : Runtime) (d : PyDict) (key : string)
    (v : bytes) : PyDict :=
  match PyUnicode_FromString rt key with
  | None => d
  | Some kv => PyDict_SetItem d kv v
  end.

(** ** The platform clipboard adapter

    Everything scrap.c calls but does not define.  Functions returning a C
    [int] return a [Z]; the C code only tests them for zero. *)

Record Adapter : Type := {
  platform : Type;
  SDL_WasInit_video : platform -> bool;
  SDL_GetError : platform -> string;
  scrap_init : platform -> Z * platform;
  scrap_lost : platform -> Z;
  scrap_get_types : platform -> option (list string);
  scrap_contains : string -> platform -> Z;
  scrap_get : string -> platform -> option bytes;
  scrap_put : string -> bytes -> platform -> Z * platform;
  SDL_HasClipboardText : platform -> bool;
  SDL_GetClipboardText : platform -> string;
  SDL_SetClipboardText : string -> platform -> Z * platform
}.

(** ** Module state *)

(** [ScrapClipType] is declared in scrap.h, which is not among the sources;
    the enumeration has the two members used in scrap.c, numbered in
    declaration order. *)
Definition SCRAP_CLIPBOARD : Z := 0.
Definition SCRAP_SELECTION : Z := 1.

Record ScrapState : Type := {
  _scrapinitialized : Z;
  _currentmode : Z;
  _selectiondata : PyDict;
  _clipdata : PyDict
}.

(** The statics as the loader leaves them.  The two dictionary pointers
    start as NULL; every use of them sits behind the initialization check,
    and the flag is only raised by the adapter's init, which [_scrap_init]
    calls after it has created both dictionaries, so a NULL pointer is never
    followed and is represented by the empty dictionary. *)
Definition initial_state : ScrapState :=
  {| _scrapinitialized := 0; _currentmode := 0;
     _selectiondata := PyDict_New; _clipdata := PyDict_New |}.

Definition set_scrapinitialized (v : Z) (s : ScrapState) : ScrapState :=
  {| _scrapinitialized := v; _currentmode := _currentmode s;
     _selectiondata := _selectiondata s; _clipdata := _clipdata s |}.

Definition set_currentmode (v : Z) (s : ScrapState) : ScrapState :=
  {| _scrapinitialized := _scrapinitialized s; _currentmode := v;
     _selectiondata := _selectiondata s; _clipdata := _clipdata s |}.

Definition set_selectiondata (d : PyDict) (s : ScrapState) : ScrapState :=
  {| _scrapinitialized := _scrapinitialized s; _currentmode := _currentmode s;
     _selectiondata := d; _clipdata := _clipdata s |}.

Definition set_clipdata (d : PyDict) (s : ScrapState) : ScrapState :=
  {| _scrapinitialized := _scrapinitialized s; _currentmode := _currentmode s;
     _selectiondata := _selectiondata s; _clipdata := d |}.

(** C truth of an [int]. *)
Definition truthy (z : Z) : bool := negb (z =? 0).

Section Scrap.

Variable A : Adapter.

(** ** The monad of a call: module state, platform state, exceptions *)

Definition World : Type := ScrapState * platform A.

Definition M (T : Type) : Type := World -> Outcome T * World.

Definition ret {T} (x : T) : M T := fun w => (Return x, w).

Definition raise {T} (e : PyExc) : M T := fun w => (Raise e, w).

Definition bind {T U} (m : M T) (f : T -> M U) : M U :=
  fun w =>
    match m w with
    | (Return x, w') => f x w'
    | (Raise e, w') => (Raise e, w')
    end.

Notation "x <- m ;; k" := (bind m (fun x => k))
  (at level 61, m at next level, right associativity).
Notation "m ;; k" := (bind m (fun _ => k))
  (at level 61, right associativity).

Definition statics : M ScrapState := fun w => (Return (fst w), w).

Definition os : M (platform A) := fun w => (Return (snd w), w).

Definition store (f : ScrapState -> ScrapState) : M unit :=
  fun w => (Return tt, (f (fst w), snd w)).

Definition os_call {T} (f : platform A -> T * platform A) : M T :=
  fun w => let (r, p) := f (snd w) in (Return r, (fst w, p)).

(** ** Macros and helpers of the included headers *)

(** pygame_scrap_initialized, lines 92-96. *)
Definition pygame_scrap_initialized : M Z :=
  s <- statics ;; ret (_scrapinitialized s).

(** Modelled from the spec: PYGAME_SCRAP_INIT_CHECK is defined in scrap.h,
    which is not among the sources.  The specification has the generic
    operations fail with a "not initialized" condition when the module is
    not Initialized; the macro returns that failure when
    [pygame_scrap_initialized] is zero. *)
Definition PYGAME_SCRAP_INIT_CHECK : M unit :=
  i <- pygame_scrap_initialized ;;
  if truthy i then ret tt else raise ScrapNotInitialized.

(** VIDEO_INIT_CHECK of pygame.h: fails unless SDL's video subsystem is up. *)
Definition VIDEO_INIT_CHECK : M unit :=
  p <- os ;;
  if SDL_WasInit_video A p then ret tt else raise VideoNotInitialized.

Definition PyErr_WarnEx (rt : Runtime) (msg : string) : M unit :=
  if warn_raises rt then raise (DeprecationWarning msg) else ret tt.

(** Modelled from the spec: pygame_scrap_init belongs to the included
    platform file.  The specification gives the module two states with a
    one-way transition on a successful init; the adapter's init is run on
    the platform and a non-zero result raises [_scrapinitialized]. *)
Definition pygame_scrap_init : M Z :=
  r <- os_call (scrap_init A) ;;
  (if truthy r then store (set_scrapinitialized 1) else ret tt) ;;
  ret r.

Definition pygame_scrap_lost : M Z :=
  p <- os ;; ret (scrap_lost A p).

(** The dictionary the switch on [_currentmode] selects (lines 167-173,
    248-257 and 328-342): SCRAP_SELECTION has its own case, SCRAP_CLIPBOARD
    shares the default one. *)
Definition mode_is_selection (mode : Z) : bool := mode =? SCRAP_SELECTION.

(** ** The module functions *)

(** _scrap_set_mode, lines 369-389.  The "i" conversion of
    PyArg_ParseTuple stores straight into [_currentmode]; a Python integer
    that does not fit a C int makes the conversion fail before anything is
    stored. *)
Definition INT_MIN : Z := -2147483648.
Definition INT_MAX : Z := 2147483647.

Definition PyArg_ParseTuple_i_currentmode (m : Z) : M unit :=
  if (INT_MIN <=? m) && (m <=? INT_MAX)
  then store (set_currentmode m)
  else raise OverflowError.

Definition _scrap_set_mode (rt : Runtime) (m : Z) : M PyObject :=
  PYGAME_SCRAP_INIT_CHECK ;;
  PyErr_WarnEx rt "pygame.scrap.set_mode deprecated since 2.2.0" ;;
  PyArg_ParseTuple_i_currentmode m ;;
  s <- statics ;;
  if negb (_currentmode s =? SCRAP_CLIPBOARD)
     && negb (_currentmode s =? SCRAP_SELECTION)
  then raise (ValueError "invalid clipboard mode")
  else
    (* Force the clipboard, if not in a X11 environment. *)
    store (set_currentmode SCRAP_CLIPBOARD) ;;
    ret Py_None.

(** _scrap_init, lines 101-128. *)
Definition _scrap_init (rt : Runtime) : M PyObject :=
  VIDEO_INIT_CHECK ;;
  PyErr_WarnEx rt "pygame.scrap.init deprecated since 2.2.0" ;;
  i <- pygame_scrap_initialized ;;
  (if negb (truthy i)
   then store (set_clipdata PyDict_New) ;;
        store (set_selectiondata PyDict_New)
   else ret tt) ;;
  r <- pygame_scrap_init ;;
  if negb (truthy r)
  then p <- os ;; raise (SDLError (SDL_GetError A p))
  else ret Py_None.

(** _scrap_get_init, lines 135-145. *)
Definition _scrap_get_init (rt : Runtime) : M PyObject :=
  PyErr_WarnEx rt "pygame.scrap.get_init deprecated since 2.2.0" ;;
  i <- pygame_scrap_initialized ;;
  ret (Py_Bool (truthy i)).

(** The loop of lines 180-194: every name the adapter lists is decoded as
    ASCII and appended; the first name that does not decode ends the call
    with the decoder's exception. *)
Fixpoint decode_types (types : list string) (lst : list string)
  : option (list string) :=
  match types with
  | [] => Some lst
  | type :: rest =>
      match PyUnicode_DecodeASCII type with
      | None => None
      | Some tmp => decode_types rest (lst ++ [tmp])
      end
  end.

(** _scrap_get_types, lines 150-196. *)
Definition _scrap_get_types (rt : Runtime) : M PyObject :=
  PyErr_WarnEx rt "pygame.scrap.get_types deprecated since 2.2.0" ;;
  PYGAME_SCRAP_INIT_CHECK ;;
  lost <- pygame_scrap_lost ;;
  s <- statics ;;
  if negb (truthy lost)
  then
    if mode_is_selection (_currentmode s)
    then ret (PyDict_Keys (_selectiondata s))
    else ret (PyDict_Keys (_clipdata s))
  else
    p <- os ;;
    match scrap_get_types A p with
    | None => ret (PyList [])
    | Some types =>
        match decode_types types [] with
        | None => raise UnicodeDecodeError
        | Some lst => ret (PyList lst)
        end
    end.

(** _scrap_contains, lines 201-217.  The argument is the C string the "s"
    conversion produced. *)
Definition _scrap_contains (rt : Runtime) (type : string) : M PyObject :=
  PyErr_WarnEx rt "pygame.scrap.contains deprecated since 2.2.0" ;;
  p <- os ;;
  if truthy (scrap_contains A type p)
  then ret (Py_Bool true)
  else ret (Py_Bool false).

(** _scrap_get_scrap, lines 222-295. *)
Definition _scrap_get_scrap (rt : Runtime) (scrap_type : string) : M PyObject :=
  PyErr_WarnEx rt
    ("pygame.scrap.get deprecated since 2.2.0. Consider using" ++
     " pygame.scrap.get_text instead.") ;;
  PYGAME_SCRAP_INIT_CHECK ;;
  lost <- pygame_scrap_lost ;;
  if negb (truthy lost)
  then
    (* Still own the clipboard. *)
    s <- statics ;;
    let scrap_dict :=
      if mode_is_selection (_currentmode s)
      then _selectiondata s else _clipdata s in
    match PyUnicode_FromString rt scrap_type with
    | None =>
        raise (ValueError
                 ("invalid scrap data type identifier (" ++ scrap_type ++ ")"))
    | Some key =>
        match PyDict_GetItemWithError rt scrap_dict key with
        | (None, true) =>
            raise (SystemError
                     ("pygame.scrap internal error (key=" ++ scrap_type ++ ")"))
        | (None, false) => ret Py_None
        | (Some val, _) => ret (PyBytes val)
        end
    end
  else
    p <- os ;;
    match scrap_get A scrap_type p with
    | None => ret Py_None
    | Some scrap => ret (PyBytes scrap)
    end.

(** _scrap_put_scrap, lines 300-345.  The arguments are the C string and
    the byte buffer the "sy#" conversion produced. *)
Definition _scrap_put_scrap (rt : Runtime) (scrap_type : string) (scrap : bytes)
  : M PyObject :=
  PyErr_WarnEx rt
    ("pygame.scrap.put deprecated since 2.2.0. Consider using" ++
     " pygame.scrap.put_text instead.") ;;
  PYGAME_SCRAP_INIT_CHECK ;;
  (* Set it in the clipboard. *)
  r <- os_call (scrap_put A scrap_type scrap) ;;
  if negb (truthy r)
  then raise (SDLError "content could not be placed in clipboard.")
  else
    (* Add or replace the set value. *)
    s <- statics ;;
    (if mode_is_selection (_currentmode s)
     then store (set_selectiondata
                   (PyDict_SetItemString rt (_selectiondata s) scrap_type scrap))
     else store (set_clipdata
                   (PyDict_SetItemString rt (_clipdata s) scrap_type scrap))) ;;
    ret Py_None.

(** _scrap_lost_scrap, lines 350-363. *)
Definition _scrap_lost_scrap (rt : Runtime) : M PyObject :=
  PYGAME_SCRAP_INIT_CHECK ;;
  PyErr_WarnEx rt "pygame.scrap.lost deprecated since 2.2.0" ;;
  lost <- pygame_scrap_lost ;;
  if truthy lost then ret (Py_Bool true) else ret (Py_Bool false).

(** _scrap_get_text, lines 397-416.  [*text == 0] holds of the empty C
    string. *)
Definition _scrap_get_text (rt : Runtime) : M PyObject :=
  p <- os ;;
  let hasText := SDL_HasClipboardText A p in
  let text := SDL_GetClipboardText A p in
  if String.eqb text "" && hasText
  then raise (SDLError (SDL_GetError A p))
  else
    match PyUnicode_FromString rt text with
    | None => raise UnicodeDecodeError
    | Some returnValue => ret (PyUnicode returnValue)
    end.

(** _scrap_put_text, lines 425-439. *)
Definition _scrap_put_text (rt : Runtime) (text : string) : M PyObject :=
  r <- os_call (SDL_SetClipboardText A text) ;;
  if truthy r
  then p <- os ;; raise (SDLError (SDL_GetError A p))
  else ret Py_None.

(** _scrap_has_text, lines 447-457. *)
Definition _scrap_has_text (rt : Runtime) : M PyObject :=
  p <- os ;;
  if SDL_HasClipboardText A p then ret (Py_Bool true) else ret (Py_Bool false).

End Scrap.

Arguments ret {A T} x.
Arguments raise {A T} e.

(** The cache the switch on the stored mode hands to get, put and
    get_types. *)
Definition active_cache (s : ScrapState) : PyDict :=
  if mode_is_selection (_currentmode s) then _selectiondata s else _clipdata s.

Definition initialized (s : ScrapState) : Prop :=
  truthy (_scrapinitialized s) = true.

Definition option_to_py (o : option bytes) : PyObject :=
  match o with
  | None => Py_None
  | Some b => PyBytes b
  end.

(** ** A decoder to compute with

    Well-formed UTF-8 as the runtime's decoder accepts it: no overlong
    form, no surrogate, nothing above U+10FFFF.  It serves as the
    [utf8_valid] of a concrete runtime. *)

Definition continuation (b : Z) : bool := (128 <=? b) && (b <=? 191).

Fixpoint utf8_wellformed (l : list Z) : bool :=
  match l with
  | [] => true
  | b0 :: r0 =>
      if b0 <? 128 then utf8_wellformed r0
      else
        match r0 with
        | [] => false
        | b1 :: r1 =>
            if (194 <=? b0) && (b0 <=? 223)
            then continuation b1 && utf8_wellformed r1
            else
              match r1 with
              | [] => false
              | b2 :: r2 =>
                  if (224 <=? b0) && (b0 <=? 239)
                  then
                    (if b0 =? 224 then (160 <=? b1) && (b1 <=? 191)
                     else if b0 =? 237 then (128 <=? b1) && (b1 <=? 159)
                     else continuation b1)
                    && continuation b2 && utf8_wellformed r2
                  else
                    match r2 with
                    | [] => false
                    | b3 :: r3 =>
                        (240 <=? b0) && (b0 <=? 244)
                        && (if b0 =? 240 then (144 <=? b1) && (b1 <=? 191)
                            else if b0 =? 244 then (128 <=? b1) && (b1 <=? 143)
                            else continuation b1)
                        && continuation b2 && continuation b3
                        && utf8_wellformed r3
                    end
              end
        end
  end.

Definition string_bytes (s : string) : list Z :=
  map (fun c => Z.of_nat (nat_of_ascii c)) (list_ascii_of_string s).

(** ** A platform to compute with

    An in-memory clipboard standing for the platform: typed payloads, one
    text slot with the answer of the "has text" probe, the answer of the
    ownership probe, and the results the next init, put and text write
    will report. *)

Module Sim.

Record OS : Type := {
  video : bool;
  init_result : Z;
  put_result : Z;
  settext_result : Z;
  lost : Z;
  payloads : PyDict;
  has_text : bool;
  text : string
}.

Definition with_payload (k : string) (v : bytes) (o : OS) : OS :=
  {| video := video o; init_result := init_result o;
     put_result := put_result o; settext_result := settext_result o;
     lost := lost o; payloads := PyDict_SetItem (payloads o) k v;
     has_text := has_text o; text := text o |}.

Definition with_text (t : string) (o : OS) : OS :=
  {| video := video o; init_result := init_result o;
     put_result := put_result o; settext_result := settext_result o;
     lost := lost o; payloads := payloads o;
     has_text := negb (String.eqb t ""); text := t |}.

Definition adapter : Adapter :=
  {| platform := OS;
     SDL_WasInit_video := video;
     SDL_GetError := fun _ => "platform error";
     scrap_init := fun o => (init_result o, o);
     scrap_lost := lost;
     scrap_get_types := fun o => Some (map fst (payloads o));
     scrap_contains := fun k o =>
       match PyDict_GetItem (payloads o) k with Some _ => 1 | None => 0 end;
     scrap_get := fun k o => PyDict_GetItem (payloads o) k;
     scrap_put := fun k v o =>
       (put_result o, if truthy (put_result o) then with_payload k v o else o);
     SDL_HasClipboardText := has_text;
     SDL_GetClipboardText := text;
     SDL_SetClipboardText := fun t o =>
       (settext_result o, if truthy (settext_result o) then o else with_text t o)
  |}.

(** A desktop with the video subsystem up, nothing on the clipboard, and
    every platform call succeeding. *)
Definition fresh : OS :=
  {| video := true; init_result := 1; put_result := 1; settext_result := 0;
     lost := 0; payloads := []; has_text := false; text := "" |}.

(** The same desktop refusing clipboard writes. *)
Definition read_only : OS :=
  {| video := true; init_result := 1; put_result := 0; settext_result := -1;
     lost := 0; payloads := []; has_text := false; text := "" |}.

(** The same desktop after another application took the clipboard and
    offered one payload. *)
Definition taken : OS :=
  {| video := true; init_result := 1; put_result := 1; settext_result := 0;
     lost := 1; payloads := [("text/plain", ["x"%byte])];
     has_text := true; text := "x" |}.

(** A text read that failed: the probe reports text, the read is empty. *)
Definition failed_read : OS :=
  {| video := true; init_result := 1; put_result := 1; settext_result := 0;
     lost := 0; payloads := []; has_text := true; text := "" |}.

(** A runtime with the default warning filter, a decoder that accepts
    every string, and dictionaries that never report an error. *)
Definition quiet : Runtime :=
  {| warn_raises := false; utf8_valid := fun _ => true;
     getitem_error := fun _ => false |}.

(** The module after a first successful init(). *)
Definition ready : ScrapState :=
  {| _scrapinitialized := 1; _currentmode := SCRAP_CLIPBOARD;
     _selectiondata := PyDict_New; _clipdata := PyDict_New |}.

(** The module after init() and put("text/plain", b"hi"). *)
Definition holding : ScrapState :=
  {| _scrapinitialized := 1; _currentmode := SCRAP_CLIPBOARD;
     _selectiondata := PyDict_New;
     _clipdata := [("text/plain", ["h"%byte; "i"%byte])] |}.

(** A runtime with the default warning filter and a decoder that accepts
    well-formed UTF-8 only. *)
Definition strict : Runtime :=
  {| warn_raises := false;
     utf8_valid := fun s => utf8_wellformed (string_bytes s);
     getitem_error := fun _ => false |}.

(** A clipboard whose text is the single byte 0xFF, which is not UTF-8. *)
Definition garbled : OS :=
  {| video := true; init_result := 1; put_result := 1; settext_result := 0;
     lost := 1; payloads := []; has_text := true;
     text := String (ascii_of_nat 255) "" |}.

End Sim.

(** ** The module as Python sees it

    The method table [scrap_builtins] (lines 459-480): one constructor per
    registered name, carrying the converted arguments. *)

Inductive Call : Type :=
| init
| get_init
| contains (type : string)
| get (type : string)
| get_types
| put (type : string) (data : bytes)
| lost
| set_mode (mode : Z)
| get_text
| has_text
| put_text (text : string).

Definition scrap_builtins (A : Adapter) (rt : Runtime) (c : Call)
  : M A PyObject :=
  match c with
  | init => _scrap_init A rt
  | get_init => _scrap_get_init A rt
  | contains type => _scrap_contains A rt type
  | get type => _scrap_get_scrap A rt type
  | get_types => _scrap_get_types A rt
  | put type data => _scrap_put_scrap A rt type data
  | lost => _scrap_lost_scrap A rt
  | set_mode mode => _scrap_set_mode A rt mode
  | get_text => _scrap_get_text A rt
  | has_text => _scrap_has_text A rt
  | put_text text => _scrap_put_text A rt text
  end.

Definition returns {T} (o : Outcome T) : bool :=
  match o with
  | Return _ => true
  | Raise _ => false
  end.

(** The worlds the module can be in: it is loaded with [initial_state],
    Python calls its functions under whatever runtime conditions hold at
    the time, and between two calls the platform may change on its own
    (another application writes to the clipboard). *)
Inductive reachable (A : Adapter) : World A -> Prop :=
| reach_loaded p : reachable A (initial_state, p)
| reach_call w rt c :
    reachable A w -> reachable A (snd (scrap_builtins A rt c w))
| reach_platform s p p' :
    reachable A (s, p) -> reachable A (s, p').

(** The worlds in which no init() has returned normally yet. *)
Inductive before_init (A : Adapter) : World A -> Prop :=
| before_loaded p : before_init A (initial_state, p)
| before_call w rt c :
    before_init A w ->
    (c = init -> returns (fst (scrap_builtins A rt c w)) = false) ->
    before_init A (snd (scrap_builtins A rt c w))
| before_platform s p p' :
    before_init A (s, p) -> before_init A (s, p').


(** How the world moves on from [w]: by further calls and by platform
    changes between them. *)
Inductive evolves (A : Adapter) (w : World A) : World A -> Prop :=
| evolves_here : evolves A w w
| evolves_call w' rt c :
    evolves A w w' -> evolves A w (snd (scrap_builtins A rt c w'))
| evolves_platform s p p' :
    evolves A w (s, p) -> evolves A w (s, p').

(** The keys of a dictionary, in the order [PyDict_Keys] lists them. *)
Definition keys (d : PyDict) : list string := map fst d.

(** ** Proof steps shared by the properties below *)

(** Running a call: unfold the monad down to the pair it computes. *)
Ltac run_call :=
  unfold _scrap_set_mode, _scrap_init, _scrap_get_init, _scrap_get_types,
    _scrap_contains, _scrap_get_scrap, _scrap_put_scrap, _scrap_lost_scrap,
    _scrap_get_text, _scrap_put_text, _scrap_has_text,
    PYGAME_SCRAP_INIT_CHECK, VIDEO_INIT_CHECK, PyErr_WarnEx,
    PyArg_ParseTuple_i_currentmode, pygame_scrap_init, pygame_scrap_lost,
    pygame_scrap_initialized, bind, ret, raise, statics, os, store, os_call;
  cbn [fst snd].

(** Case analysis on every test the unfolded call still branches on. *)
Ltac split_tests :=
  repeat (cbn;
          match goal with
          | |- context [if negb ?b then _ else _] => destruct b eqn:?
          | |- context [if ?b then _ else _] => destruct b eqn:?
          | |- context [match ?x with Some _ => _ | None => _ end] =>
              destruct x eqn:?
          | |- context [let (_, _) := ?x in _] =>
              lazymatch x with
              | context [match _ with _ => _ end] => fail
              | _ => destruct x eqn:?
              end
          end).

(** ** The dictionaries *)

Section Dictionaries.

Lemma PyDict_GetItem_SetItem_same (d : PyDict) (k : string) (v : bytes) :
  PyDict_GetItem (PyDict_SetItem d k v) k = Some v.
Proof.
  induction d as [|[k' v'] d IH]; cbn.
  - now rewrite String.eqb_refl.
  - destruct (String.eqb k k') eqn:E; cbn; rewrite E; [reflexivity | exact IH].
Qed.

Lemma PyDict_GetItem_SetItem_other (d : PyDict) (k k' : string) (v : bytes) :
  k <> k' ->
  PyDict_GetItem (PyDict_SetItem d k v) k' = PyDict_GetItem d k'.
Proof.
  intros Hne.
  induction d as [|[k0 v0] d IH]; cbn.
  - destruct (String.eqb_spec k' k); [congruence | reflexivity].
  - destruct (String.eqb_spec k k0) as [->|Hk]; cbn.
    + destruct (String.eqb_spec k' k0); [congruence | reflexivity].
    + destruct (String.eqb_spec k' k0); [reflexivity | exact IH].
Qed.

Lemma PyDict_SetItem_keys_NoDup (d : PyDict) (k : string) (v : bytes) :
  NoDup (map fst d) -> NoDup (map fst (PyDict_SetItem d k v)).
Proof.
  induction d as [|[k0 v0] d IH]; cbn; intros Hnd.
  - constructor; [intros [] | constructor].
  - destruct (String.eqb_spec k k0) as [->|Hk]; cbn; [exact Hnd|].
    inversion Hnd as [|? ? Hin Hnd']; subst.
    constructor; [|now apply IH].
    intros Hin'. apply Hin.
    clear - Hin' Hk.
    induction d as [|[k1 v1] d IH]; cbn in *.
    + destruct Hin' as [->|[]]. congruence.
    + destruct (String.eqb_spec k k1) as [->|Hk1]; cbn in *; [exact Hin'|].
      destruct Hin' as [->|Hin']; [now left | right; now apply IH].
Qed.

End Dictionaries.

(** ** The mode selector *)

Section ModeSelector.

Variable A : Adapter.

Lemma set_mode_not_initialized rt m s p :
  truthy (_scrapinitialized s) = false ->
  _scrap_set_mode A rt m (s, p) = (Raise ScrapNotInitialized, (s, p)).
Proof. intros H. run_call. now rewrite H. Qed.

Lemma set_mode_valid rt m s p :
  initialized s -> warn_raises rt = false ->
  m = SCRAP_CLIPBOARD \/ m = SCRAP_SELECTION ->
  _scrap_set_mode A rt m (s, p)
  = (Return Py_None, (set_currentmode SCRAP_CLIPBOARD s, p)).
Proof.
  intros Hi Hw Hm. run_call. rewrite Hi, Hw.
  destruct Hm as [-> | ->]; reflexivity.
Qed.

(** What a rejected mode leaves behind: the conversion has already stored
    the integer when the range check fails. *)
Lemma set_mode_invalid rt m s p :
  initialized s -> warn_raises rt = false ->
  INT_MIN <= m <= INT_MAX ->
  m <> SCRAP_CLIPBOARD -> m <> SCRAP_SELECTION ->
  _scrap_set_mode A rt m (s, p)
  = (Raise (ValueError "invalid clipboard mode"), (set_currentmode m s, p)).
Proof.
  intros Hi Hw [Hlo Hhi] H0 H1. run_call. rewrite Hi, Hw.
  apply Z.leb_le in Hlo, Hhi. rewrite Hlo, Hhi. cbn.
  apply Z.eqb_neq in H0, H1. now rewrite H0, H1.
Qed.

(** Whatever the call was given, it can only return normally with the
    stored mode equal to SCRAP_CLIPBOARD. *)
Lemma set_mode_returns rt m s p r s' p' :
  _scrap_set_mode A rt m (s, p) = (Return r, (s', p')) ->
  r = Py_None /\ s' = set_currentmode SCRAP_CLIPBOARD s /\ p' = p.
Proof.
  run_call.
  destruct (truthy (_scrapinitialized s)); [|discriminate].
  destruct (warn_raises rt); [discriminate|].
  destruct ((INT_MIN <=? m) && (m <=? INT_MAX)); [|discriminate].
  cbn.
  destruct (negb (m =? SCRAP_CLIPBOARD) && negb (m =? SCRAP_SELECTION));
    [discriminate|].
  intros H; inversion H; subst. auto.
Qed.

End ModeSelector.

(** ** Invariants of the module state *)

Section StateMachine.

Variable A : Adapter.

(** Only a normally returning init() writes [_scrapinitialized]. *)
Lemma flag_written_by_init_only rt c w :
  (c = init -> returns (fst (scrap_builtins A rt c w)) = false) ->
  _scrapinitialized (fst (snd (scrap_builtins A rt c w)))
  = _scrapinitialized (fst w).
Proof.
  destruct w as [s p]. destruct c; cbn [scrap_builtins]; intros Hc.
  - specialize (Hc eq_refl). revert Hc. run_call.
    split_tests; cbn; intros; try reflexivity; discriminate.
  - run_call; split_tests; reflexivity.
  - run_call; split_tests; reflexivity.
  - run_call; split_tests; reflexivity.
  - run_call; split_tests; reflexivity.
  - run_call; split_tests; reflexivity.
  - run_call; split_tests; reflexivity.
  - run_call; split_tests; reflexivity.
  - run_call; split_tests; reflexivity.
  - run_call; split_tests; reflexivity.
  - run_call; split_tests; reflexivity.
Qed.

Lemma before_init_not_initialized w :
  before_init A w -> _scrapinitialized (fst w) = 0.
Proof.
  induction 1 as [p | w rt c Hw IH Hc | s p p' Hw IH]; cbn in *.
  - reflexivity.
  - now rewrite flag_written_by_init_only.
  - exact IH.
Qed.

(** No call stores SCRAP_SELECTION: set_mode is the only writer of
    [_currentmode], and it leaves there either a rejected integer or
    SCRAP_CLIPBOARD. *)
Lemma mode_after_call rt c w :
  _currentmode (fst w) <> SCRAP_SELECTION ->
  _currentmode (fst (snd (scrap_builtins A rt c w))) <> SCRAP_SELECTION.
Proof.
  destruct w as [s p]. cbn [fst]. intros Hm.
  destruct c; cbn [scrap_builtins]; run_call; split_tests; cbn;
    try exact Hm; try discriminate.
  match goal with
  | H : _ && negb (?m =? SCRAP_SELECTION) = true |- ?m <> _ =>
      apply andb_true_iff in H as [_ H];
      apply negb_true_iff, Z.eqb_neq in H; exact H
  end.
Qed.

Lemma mode_never_selection w :
  reachable A w -> _currentmode (fst w) <> SCRAP_SELECTION.
Proof.
  induction 1 as [p | w rt c Hw IH | s p p' Hw IH]; cbn [fst] in *.
  - discriminate.
  - now apply mode_after_call.
  - exact IH.
Qed.

End StateMachine.

(** ** Properties of the mode selector *)

(** C1.  The claim is that set_mode with an integer that is neither
    SCRAP_CLIPBOARD nor SCRAP_SELECTION raises and leaves the stored mode
    as it was.  The call set_mode(5) on an initialized module whose mode
    is SCRAP_CLIPBOARD does raise ValueError("invalid clipboard mode"),
    but the stored mode is 5 afterwards, no longer the mode it had. *)
Theorem set_mode_rejected_value_is_stored :
  _scrap_set_mode Sim.adapter Sim.quiet 5 (Sim.ready, Sim.fresh)
  = (Raise (ValueError "invalid clipboard mode"),
     (set_currentmode 5 Sim.ready, Sim.fresh))
  /\ _currentmode Sim.ready = SCRAP_CLIPBOARD
  /\ _currentmode (set_currentmode 5 Sim.ready) = 5.
Proof. repeat split. Qed.

(** C3, as stated, fails: there is no platform, runtime or state in which
    a normally returning set_mode(SCRAP_SELECTION) leaves SCRAP_SELECTION
    as the stored mode. *)
Lemma selection_is_never_stored :
  ~ exists (A : Adapter) (rt : Runtime) (s : ScrapState) (p : platform A),
      let result := _scrap_set_mode A rt SCRAP_SELECTION (s, p) in
      returns (fst result) = true
      /\ _currentmode (fst (snd result)) = SCRAP_SELECTION.
Proof.
  intros (A & rt & s & p & Hret & Hmode). cbn zeta in *.
  destruct (_scrap_set_mode A rt SCRAP_SELECTION (s, p)) as [[r|e] [s' p']] eqn:E;
    [|discriminate].
  apply set_mode_returns in E as (_ & -> & _).
  cbn in Hmode. discriminate.
Qed.

(** C3, amended.  On every platform (whatever adapter is compiled in),
    set_mode(SCRAP_SELECTION) on an initialized module, with the
    deprecation warning not escalated, returns None and stores
    SCRAP_CLIPBOARD: reading the mode afterwards yields Clipboard, and
    nothing else of the module or the platform has changed. *)
Theorem set_mode_selection_yields_clipboard
    (A : Adapter) (rt : Runtime) (s : ScrapState) (p : platform A) :
  initialized s ->
  warn_raises rt = false ->
  exists s',
    _scrap_set_mode A rt SCRAP_SELECTION (s, p) = (Return Py_None, (s', p))
    /\ _currentmode s' = SCRAP_CLIPBOARD
    /\ _scrapinitialized s' = _scrapinitialized s
    /\ _clipdata s' = _clipdata s
    /\ _selectiondata s' = _selectiondata s.
Proof.
  intros Hi Hw. exists (set_currentmode SCRAP_CLIPBOARD s).
  split; [|now cbn].
  apply set_mode_valid; auto.
Qed.

Lemma set_mode_selection_yields_clipboard_witness :
  initialized Sim.ready /\ warn_raises Sim.quiet = false
  /\ exists s',
       _scrap_set_mode Sim.adapter Sim.quiet SCRAP_SELECTION
         (Sim.ready, Sim.fresh) = (Return Py_None, (s', Sim.fresh))
       /\ _currentmode s' = SCRAP_CLIPBOARD
       /\ _scrapinitialized s' = _scrapinitialized Sim.ready
       /\ _clipdata s' = _clipdata Sim.ready
       /\ _selectiondata s' = _selectiondata Sim.ready.
Proof.
  split; [reflexivity|]. split; [reflexivity|].
  apply (set_mode_selection_yields_clipboard Sim.adapter Sim.quiet
           Sim.ready Sim.fresh); reflexivity.
Defined.

(** C9.  On every platform, whenever set_mode returns normally, whatever
    mode was requested, the stored mode is SCRAP_CLIPBOARD; the cache the
    mode dispatch selects is then [_clipdata], and the next get, put or
    get_types does not address [_selectiondata]: get and get_types give
    the same result whatever that dictionary holds, and put leaves it as
    it is. *)
Theorem set_mode_success_stores_clipboard
    (A : Adapter) (rt : Runtime) (m : Z) (s s' : ScrapState)
    (p p' : platform A) (r : PyObject) :
  _scrap_set_mode A rt m (s, p) = (Return r, (s', p')) ->
  _currentmode s' = SCRAP_CLIPBOARD
  /\ active_cache s' = _clipdata s'
  /\ (forall rt' type q d,
        fst (_scrap_get_scrap A rt' type (set_selectiondata d s', q))
        = fst (_scrap_get_scrap A rt' type (s', q)))
  /\ (forall rt' q d,
        fst (_scrap_get_types A rt' (set_selectiondata d s', q))
        = fst (_scrap_get_types A rt' (s', q)))
  /\ (forall rt' type data q,
        _selectiondata (fst (snd (_scrap_put_scrap A rt' type data (s', q))))
        = _selectiondata s').
Proof.
  intros E. apply set_mode_returns in E as (_ & -> & _).
  split; [reflexivity|]. split; [reflexivity|].
  split; [|split]; intros.
  - run_call. split_tests; reflexivity.
  - run_call. split_tests; reflexivity.
  - run_call. split_tests; reflexivity.
Qed.

Lemma set_mode_success_stores_clipboard_witness :
  _scrap_set_mode Sim.adapter Sim.quiet SCRAP_SELECTION (Sim.holding, Sim.fresh)
  = (Return Py_None, (Sim.holding, Sim.fresh))
  /\ _currentmode Sim.holding = SCRAP_CLIPBOARD
  /\ active_cache Sim.holding = _clipdata Sim.holding.
Proof.
  split; [reflexivity|].
  pose proof (set_mode_success_stores_clipboard Sim.adapter Sim.quiet
                SCRAP_SELECTION Sim.holding Sim.holding Sim.fresh Sim.fresh
                Py_None eq_refl) as (Hm & Hc & _).
  split; [exact Hm | exact Hc].
Defined.

(** ** Properties of init *)

Section Init.

Variable A : Adapter.

(** The first init() is the one that creates the two dictionaries. *)
Lemma first_init_creates_empty_caches rt s p :
  truthy (_scrapinitialized s) = false ->
  SDL_WasInit_video A p = true ->
  warn_raises rt = false ->
  let s' := fst (snd (_scrap_init A rt (s, p))) in
  _clipdata s' = PyDict_New /\ _selectiondata s' = PyDict_New.
Proof.
  intros Hi Hv Hw. run_call.
  rewrite Hv; cbn. rewrite Hw; cbn. rewrite Hi; cbn.
  split_tests; cbn; auto.
Qed.

Lemma init_keeps_caches_when_initialized rt s p :
  initialized s ->
  let s' := fst (snd (_scrap_init A rt (s, p))) in
  _clipdata s' = _clipdata s /\ _selectiondata s' = _selectiondata s.
Proof.
  unfold initialized. intros Hi. run_call.
  split_tests; cbn; auto; congruence.
Qed.

End Init.

(** C2, as stated, fails: with b"hi" cached under "text/plain" in the
    clipboard buffer, a second init() returns None and the entry is still
    in the cache, which is not the empty dictionary. *)
Lemma reinit_does_not_clear_cache :
  let result := _scrap_init Sim.adapter Sim.quiet (Sim.holding, Sim.fresh) in
  fst result = Return Py_None
  /\ PyDict_GetItem (_clipdata (fst (snd result))) "text/plain"
     = Some ["h"%byte; "i"%byte]
  /\ _clipdata (fst (snd result)) <> PyDict_New.
Proof. cbn. repeat split. discriminate. Qed.

(** C2, amended.  init() on an already initialized module leaves both
    cache dictionaries exactly as they were, whatever else happens in the
    call; with the video subsystem up and the deprecation warning not
    escalated it runs the adapter's init again, and when that reports
    success the call returns None, the platform being the one the
    adapter's init left. *)
Theorem reinit_keeps_cache
    (A : Adapter) (rt : Runtime) (s : ScrapState) (p : platform A) :
  initialized s ->
  (let s' := fst (snd (_scrap_init A rt (s, p))) in
   _clipdata s' = _clipdata s /\ _selectiondata s' = _selectiondata s)
  /\ (SDL_WasInit_video A p = true ->
      warn_raises rt = false ->
      fst (scrap_init A p) <> 0 ->
      _scrap_init A rt (s, p)
      = (Return Py_None, (set_scrapinitialized 1 s, snd (scrap_init A p)))).
Proof.
  intros Hi. split; [now apply init_keeps_caches_when_initialized|].
  intros Hv Hw Hr. unfold initialized in Hi. run_call.
  rewrite Hv; cbn. rewrite Hw; cbn. rewrite Hi; cbn.
  destruct (scrap_init A p) as [r p1]. cbn in *.
  apply Z.eqb_neq in Hr. unfold truthy. rewrite Hr. cbn. rewrite Hr. reflexivity.
Qed.

Lemma reinit_keeps_cache_witness :
  initialized Sim.holding
  /\ _scrap_init Sim.adapter Sim.quiet (Sim.holding, Sim.fresh)
     = (Return Py_None, (Sim.holding, Sim.fresh)).
Proof.
  split; [reflexivity|].
  apply (reinit_keeps_cache Sim.adapter Sim.quiet Sim.holding Sim.fresh);
    [reflexivity | reflexivity | reflexivity | discriminate].
Defined.

(** ** The initialization check *)

(** C4, as stated, fails for contains: on a module that was only loaded,
    contains("text/plain") returns False instead of failing with the
    "not initialized" condition. *)
Lemma contains_before_init_returns :
  before_init Sim.adapter (initial_state, Sim.fresh)
  /\ fst (_scrap_contains Sim.adapter Sim.quiet "text/plain"
            (initial_state, Sim.fresh)) = Return (Py_Bool false)
  /\ fst (_scrap_contains Sim.adapter Sim.quiet "text/plain"
            (initial_state, Sim.fresh)) <> Raise ScrapNotInitialized.
Proof.
  split; [constructor|]. split; [reflexivity | discriminate].
Qed.

(** C4, amended.  Before any init() has returned normally, lost and
    set_mode fail with the "not initialized" condition, and so do
    get_types, get and put unless the deprecation warning is escalated
    first.  In every state, initialized or not: contains carries no
    initialization check, never fails with that condition and (the
    warning not escalated) returns what the adapter answers, leaving
    everything as it was; get_text, put_text and has_text never fail with
    that condition. *)
Theorem init_check_before_init
    (A : Adapter) (rt : Runtime) (w : World A) :
  (before_init A w ->
   fst (_scrap_lost_scrap A rt w) = Raise ScrapNotInitialized
   /\ (forall m, fst (_scrap_set_mode A rt m w) = Raise ScrapNotInitialized)
   /\ (warn_raises rt = false ->
       fst (_scrap_get_types A rt w) = Raise ScrapNotInitialized
       /\ (forall type,
             fst (_scrap_get_scrap A rt type w) = Raise ScrapNotInitialized)
       /\ (forall type data,
             fst (_scrap_put_scrap A rt type data w)
             = Raise ScrapNotInitialized)))
  /\ (forall type,
        fst (_scrap_contains A rt type w) <> Raise ScrapNotInitialized)
  /\ (forall type,
        warn_raises rt = false ->
        _scrap_contains A rt type w
        = (Return (Py_Bool (truthy (scrap_contains A type (snd w)))), w))
  /\ fst (_scrap_get_text A rt w) <> Raise ScrapNotInitialized
  /\ (forall text,
        fst (_scrap_put_text A rt text w) <> Raise ScrapNotInitialized)
  /\ fst (_scrap_has_text A rt w) <> Raise ScrapNotInitialized.
Proof.
  destruct w as [s p]. split; [|repeat split].
  - intros Hb. apply before_init_not_initialized in Hb. cbn [fst] in Hb.
    repeat split; intros; run_call; rewrite ?Hb; cbn;
      try match goal with H : warn_raises _ = false |- _ => rewrite H; cbn end;
      rewrite ?Hb; cbn; reflexivity.
  - intros type. run_call. split_tests; discriminate.
  - intros type Hw. run_call. rewrite Hw; cbn.
    destruct (truthy (scrap_contains A type p)); reflexivity.
  - run_call. unfold PyUnicode_FromString. split_tests; discriminate.
  - intros text. run_call. split_tests; discriminate.
  - run_call. split_tests; discriminate.
Qed.

Lemma init_check_before_init_witness :
  before_init Sim.adapter (initial_state, Sim.fresh)
  /\ warn_raises Sim.quiet = false
  /\ fst (_scrap_lost_scrap Sim.adapter Sim.quiet (initial_state, Sim.fresh))
     = Raise ScrapNotInitialized
  /\ fst (_scrap_get_scrap Sim.adapter Sim.quiet "text/plain"
            (initial_state, Sim.fresh))
     = Raise ScrapNotInitialized
  /\ _scrap_contains Sim.adapter Sim.quiet "text/plain"
       (initial_state, Sim.taken)
     = (Return (Py_Bool true), (initial_state, Sim.taken)).
Proof.
  destruct (init_check_before_init Sim.adapter Sim.quiet
              (initial_state, Sim.fresh))
    as (Hbefore & _).
  destruct (Hbefore (before_loaded Sim.adapter Sim.fresh))
    as (Hlost & _ & Hwarned).
  destruct (Hwarned eq_refl) as (_ & Hget & _).
  destruct (init_check_before_init Sim.adapter Sim.quiet
              (initial_state, Sim.taken))
    as (_ & _ & Hcontains & _).
  split; [constructor|]. split; [reflexivity|].
  split; [exact Hlost|]. split; [apply Hget|].
  apply Hcontains. reflexivity.
Defined.

(** ** Properties of get and put *)

Section Cache.

Variable A : Adapter.

(** get while the clipboard is still owned. *)
Lemma get_scrap_owned rt type s p :
  initialized s -> warn_raises rt = false -> scrap_lost A p = 0 ->
  utf8_valid rt type = true ->
  _scrap_get_scrap A rt type (s, p)
  = (if getitem_error rt type
     then Raise (SystemError
                   ("pygame.scrap internal error (key=" ++ type ++ ")"))
     else Return (option_to_py (PyDict_GetItem (active_cache s) type)),
     (s, p)).
Proof.
  unfold initialized, active_cache. intros Hi Hw Hl Hu. run_call.
  rewrite Hw; cbn. rewrite Hi; cbn. rewrite Hl; cbn.
  unfold PyUnicode_FromString, PyDict_GetItemWithError. rewrite Hu.
  destruct (getitem_error rt type); [reflexivity|].
  destruct (mode_is_selection (_currentmode s));
    match goal with |- context [PyDict_GetItem ?d ?k] =>
      destruct (PyDict_GetItem d k) end; reflexivity.
Qed.

(** get after the clipboard went to another application. *)
Lemma get_scrap_lost rt type s p :
  initialized s -> warn_raises rt = false -> scrap_lost A p <> 0 ->
  _scrap_get_scrap A rt type (s, p)
  = (Return (option_to_py (scrap_get A type p)), (s, p)).
Proof.
  unfold initialized. intros Hi Hw Hl. run_call.
  rewrite Hw; cbn. rewrite Hi; cbn.
  apply Z.eqb_neq in Hl. unfold truthy at 1. rewrite Hl. cbn.
  destruct (scrap_get A type p); reflexivity.
Qed.

Lemma put_scrap_refused rt type data s p :
  initialized s -> warn_raises rt = false ->
  fst (scrap_put A type data p) = 0 ->
  _scrap_put_scrap A rt type data (s, p)
  = (Raise (SDLError "content could not be placed in clipboard."),
     (s, snd (scrap_put A type data p))).
Proof.
  unfold initialized. intros Hi Hw Hr. run_call.
  rewrite Hw; cbn. rewrite Hi; cbn.
  destruct (scrap_put A type data p) as [r p1]. cbn in *. subst r.
  reflexivity.
Qed.

Lemma put_scrap_accepted rt type data s p :
  initialized s -> warn_raises rt = false ->
  fst (scrap_put A type data p) <> 0 ->
  _scrap_put_scrap A rt type data (s, p)
  = (Return Py_None,
     (if mode_is_selection (_currentmode s)
      then set_selectiondata
             (PyDict_SetItemString rt (_selectiondata s) type data) s
      else set_clipdata (PyDict_SetItemString rt (_clipdata s) type data) s,
      snd (scrap_put A type data p))).
Proof.
  unfold initialized. intros Hi Hw Hr. run_call.
  rewrite Hw; cbn. rewrite Hi; cbn.
  destruct (scrap_put A type data p) as [r p1]. cbn in *.
  apply Z.eqb_neq in Hr. unfold truthy. rewrite Hr. cbn.
  destruct (mode_is_selection (_currentmode s)); reflexivity.
Qed.

(** A put can only return normally on an initialized module, with the
    warning not escalated and the adapter accepting the payload. *)
Lemma put_scrap_returns rt type data s p r w' :
  _scrap_put_scrap A rt type data (s, p) = (Return r, w') ->
  initialized s /\ warn_raises rt = false
  /\ fst (scrap_put A type data p) <> 0.
Proof.
  unfold initialized. run_call.
  destruct (warn_raises rt); cbn; [discriminate|].
  destruct (truthy (_scrapinitialized s)); cbn; [|discriminate].
  destruct (scrap_put A type data p) as [r0 p1]. cbn.
  unfold truthy. destruct (Z.eqb_spec r0 0); cbn; [discriminate|].
  auto.
Qed.

Lemma get_types_owned rt s p :
  initialized s -> warn_raises rt = false -> scrap_lost A p = 0 ->
  _scrap_get_types A rt (s, p) = (Return (PyDict_Keys (active_cache s)), (s, p)).
Proof.
  unfold initialized, active_cache. intros Hi Hw Hl. run_call.
  rewrite Hw; cbn. rewrite Hi; cbn. rewrite Hl; cbn.
  destruct (mode_is_selection (_currentmode s)); reflexivity.
Qed.

End Cache.

(** C5.  On an initialized module (the deprecation warning not
    escalated): while the clipboard is still owned, get(type) returns the
    value cached for the type in the buffer the stored mode selects, None
    when the cache has no such key, and SystemError, not None, when the
    dictionary lookup itself reports an error; once ownership is lost,
    get(type) returns what the adapter holds for the type and does not
    look at the cache, None when the adapter has nothing.  No branch
    changes the module or the platform. *)
Theorem get_scrap_cache_or_adapter
    (A : Adapter) (rt : Runtime) (type : string) (s : ScrapState)
    (p : platform A) :
  initialized s ->
  warn_raises rt = false ->
  (scrap_lost A p = 0 ->
   utf8_valid rt type = true ->
   (getitem_error rt type = false ->
    _scrap_get_scrap A rt type (s, p)
    = (Return (option_to_py (PyDict_GetItem (active_cache s) type)), (s, p)))
   /\ (getitem_error rt type = false ->
       PyDict_GetItem (active_cache s) type = None ->
       _scrap_get_scrap A rt type (s, p) = (Return Py_None, (s, p)))
   /\ (getitem_error rt type = true ->
       _scrap_get_scrap A rt type (s, p)
       = (Raise (SystemError
                   ("pygame.scrap internal error (key=" ++ type ++ ")")),
          (s, p))))
  /\ (scrap_lost A p <> 0 ->
      _scrap_get_scrap A rt type (s, p)
      = (Return (option_to_py (scrap_get A type p)), (s, p))
      /\ (scrap_get A type p = None ->
          _scrap_get_scrap A rt type (s, p) = (Return Py_None, (s, p)))).
Proof.
  intros Hi Hw. split.
  - intros Hl Hu. rewrite (get_scrap_owned A rt type s p Hi Hw Hl Hu).
    repeat split; intros He; rewrite He; try reflexivity.
    intros ->. reflexivity.
  - intros Hl. rewrite (get_scrap_lost A rt type s p Hi Hw Hl).
    split; [reflexivity | intros ->; reflexivity].
Qed.

Lemma get_scrap_cache_or_adapter_witness :
  initialized Sim.holding /\ warn_raises Sim.quiet = false
  /\ _scrap_get_scrap Sim.adapter Sim.quiet "text/plain"
       (Sim.holding, Sim.fresh)
     = (Return (PyBytes ["h"%byte; "i"%byte]), (Sim.holding, Sim.fresh))
  /\ _scrap_get_scrap Sim.adapter Sim.quiet "text/plain"
       (Sim.holding, Sim.taken)
     = (Return (PyBytes ["x"%byte]), (Sim.holding, Sim.taken)).
Proof.
  split; [reflexivity|]. split; [reflexivity|]. split.
  - apply (get_scrap_cache_or_adapter Sim.adapter Sim.quiet "text/plain"
             Sim.holding Sim.fresh); reflexivity.
  - apply (get_scrap_cache_or_adapter Sim.adapter Sim.quiet "text/plain"
             Sim.holding Sim.taken); [reflexivity | reflexivity | discriminate].
Defined.

(** C6.  On an initialized module (the deprecation warning not
    escalated) put(type, data) hands the payload to the adapter.  When
    the adapter refuses it, put raises the clipboard-write error and the
    module state, both cache dictionaries included, is untouched.  When
    the adapter accepts it, put returns None and (the type being a
    decodable string) the cache of the buffer the stored mode selects now
    maps the type to the payload, the other cache and the mode being as
    before. *)
Theorem put_scrap_write_through
    (A : Adapter) (rt : Runtime) (type : string) (data : bytes)
    (s : ScrapState) (p : platform A) :
  initialized s ->
  warn_raises rt = false ->
  (fst (scrap_put A type data p) = 0 ->
   _scrap_put_scrap A rt type data (s, p)
   = (Raise (SDLError "content could not be placed in clipboard."),
      (s, snd (scrap_put A type data p))))
  /\ (fst (scrap_put A type data p) <> 0 ->
      utf8_valid rt type = true ->
      exists s',
        _scrap_put_scrap A rt type data (s, p)
        = (Return Py_None, (s', snd (scrap_put A type data p)))
        /\ active_cache s' = PyDict_SetItem (active_cache s) type data
        /\ PyDict_GetItem (active_cache s') type = Some data
        /\ _currentmode s' = _currentmode s
        /\ (mode_is_selection (_currentmode s) = false ->
            _selectiondata s' = _selectiondata s)
        /\ (mode_is_selection (_currentmode s) = true ->
            _clipdata s' = _clipdata s)).
Proof.
  intros Hi Hw. split.
  - now apply put_scrap_refused.
  - intros Hr Hu. eexists. split; [now apply put_scrap_accepted|].
    unfold active_cache, PyDict_SetItemString, PyUnicode_FromString.
    rewrite Hu.
    destruct (mode_is_selection (_currentmode s)) eqn:Em; cbn; rewrite Em;
      (split; [reflexivity|]);
      (split; [apply PyDict_GetItem_SetItem_same|]);
      repeat split; intros; congruence.
Qed.

Lemma put_scrap_write_through_witness :
  initialized Sim.ready /\ warn_raises Sim.quiet = false
  /\ _scrap_put_scrap Sim.adapter Sim.quiet "text/plain" ["h"%byte; "i"%byte]
       (Sim.ready, Sim.read_only)
     = (Raise (SDLError "content could not be placed in clipboard."),
        (Sim.ready, Sim.read_only))
  /\ exists s',
       fst (_scrap_put_scrap Sim.adapter Sim.quiet "text/plain"
              ["h"%byte; "i"%byte] (Sim.ready, Sim.fresh)) = Return Py_None
       /\ fst (snd (_scrap_put_scrap Sim.adapter Sim.quiet "text/plain"
                     ["h"%byte; "i"%byte] (Sim.ready, Sim.fresh))) = s'
       /\ PyDict_GetItem (active_cache s') "text/plain"
          = Some ["h"%byte; "i"%byte].
Proof.
  split; [reflexivity|]. split; [reflexivity|]. split.
  - apply (put_scrap_write_through Sim.adapter Sim.quiet "text/plain"
             ["h"%byte; "i"%byte] Sim.ready Sim.read_only); reflexivity.
  - destruct (put_scrap_write_through Sim.adapter Sim.quiet "text/plain"
                ["h"%byte; "i"%byte] Sim.ready Sim.fresh eq_refl eq_refl)
      as (_ & Hok).
    destruct Hok as (s' & Hcall & _ & Hget & _);
      [discriminate | reflexivity |].
    exists s'.
    split; [exact (f_equal fst Hcall)|].
    split; [exact (f_equal (fun x => fst (snd x)) Hcall) | exact Hget].
Defined.

(** C7.  If put(type, data) returned normally (its key having been
    built), and the next call is get(type) with the stored mode as put
    left it, the clipboard still owned, the deprecation warning not
    escalated and the lookup reporting no error, then get returns exactly
    the payload and changes nothing. *)
Theorem put_then_get
    (A : Adapter) (rt_put rt_get : Runtime) (type : string) (data : bytes)
    (s s' : ScrapState) (p p' : platform A) (r : PyObject) :
  _scrap_put_scrap A rt_put type data (s, p) = (Return r, (s', p')) ->
  utf8_valid rt_put type = true ->
  warn_raises rt_get = false ->
  utf8_valid rt_get type = true ->
  getitem_error rt_get type = false ->
  scrap_lost A p' = 0 ->
  _scrap_get_scrap A rt_get type (s', p') = (Return (PyBytes data), (s', p')).
Proof.
  intros Hput Hu Hw' Hu' He' Hl.
  destruct (put_scrap_returns A _ _ _ _ _ _ _ Hput) as (Hi & Hw & Hr).
  rewrite (put_scrap_accepted A rt_put type data s p Hi Hw Hr) in Hput.
  inversion Hput; subst; clear Hput.
  rewrite get_scrap_owned; auto.
  - rewrite He'. f_equal. f_equal.
    unfold active_cache, PyDict_SetItemString, PyUnicode_FromString.
    rewrite Hu.
    destruct (mode_is_selection (_currentmode s)) eqn:Em; cbn; rewrite Em;
      now rewrite PyDict_GetItem_SetItem_same.
  - unfold initialized in *.
    destruct (mode_is_selection (_currentmode s)); exact Hi.
Qed.

Lemma put_then_get_witness :
  _scrap_put_scrap Sim.adapter Sim.quiet "text/plain" ["h"%byte; "i"%byte]
    (Sim.ready, Sim.fresh)
  = (Return Py_None,
     (Sim.holding, Sim.with_payload "text/plain" ["h"%byte; "i"%byte] Sim.fresh))
  /\ _scrap_get_scrap Sim.adapter Sim.quiet "text/plain"
       (Sim.holding, Sim.with_payload "text/plain" ["h"%byte; "i"%byte] Sim.fresh)
     = (Return (PyBytes ["h"%byte; "i"%byte]),
        (Sim.holding, Sim.with_payload "text/plain" ["h"%byte; "i"%byte] Sim.fresh)).
Proof.
  split; [reflexivity|].
  apply (put_then_get Sim.adapter Sim.quiet Sim.quiet "text/plain"
           ["h"%byte; "i"%byte] Sim.ready Sim.holding Sim.fresh
           (Sim.with_payload "text/plain" ["h"%byte; "i"%byte] Sim.fresh)
           Py_None); reflexivity.
Defined.

(** C10.  Whenever the stored mode is anything but SCRAP_SELECTION, an
    integer rejected by set_mode included, the mode dispatch falls to the
    clipboard case: on an initialized module (the deprecation warning not
    escalated) get looks the type up in [_clipdata] and get_types lists
    the keys of [_clipdata] while the clipboard is owned, and an accepted
    put writes into [_clipdata] and leaves [_selectiondata] alone; none
    of them fails on account of the mode. *)
Theorem non_selection_mode_uses_clipdata
    (A : Adapter) (rt : Runtime) (type : string) (data : bytes)
    (s : ScrapState) (p : platform A) :
  initialized s ->
  warn_raises rt = false ->
  _currentmode s <> SCRAP_SELECTION ->
  active_cache s = _clipdata s
  /\ (scrap_lost A p = 0 ->
      utf8_valid rt type = true ->
      getitem_error rt type = false ->
      _scrap_get_scrap A rt type (s, p)
      = (Return (option_to_py (PyDict_GetItem (_clipdata s) type)), (s, p)))
  /\ (scrap_lost A p = 0 ->
      _scrap_get_types A rt (s, p) = (Return (PyDict_Keys (_clipdata s)), (s, p)))
  /\ (fst (scrap_put A type data p) <> 0 ->
      _scrap_put_scrap A rt type data (s, p)
      = (Return Py_None,
         (set_clipdata (PyDict_SetItemString rt (_clipdata s) type data) s,
          snd (scrap_put A type data p)))).
Proof.
  intros Hi Hw Hm.
  assert (Hsel : mode_is_selection (_currentmode s) = false)
    by (now apply Z.eqb_neq).
  assert (Hc : active_cache s = _clipdata s)
    by (unfold active_cache; now rewrite Hsel).
  split; [exact Hc|]. split; [|split].
  - intros Hl Hu He. rewrite get_scrap_owned by assumption.
    now rewrite He, Hc.
  - intros Hl. rewrite get_types_owned by assumption. now rewrite Hc.
  - intros Hr. rewrite put_scrap_accepted by assumption. now rewrite Hsel.
Qed.

(** The witness takes the state a rejected set_mode(5) leaves behind. *)
Lemma non_selection_mode_uses_clipdata_witness :
  snd (_scrap_set_mode Sim.adapter Sim.quiet 5 (Sim.holding, Sim.fresh))
  = (set_currentmode 5 Sim.holding, Sim.fresh)
  /\ initialized (set_currentmode 5 Sim.holding)
  /\ warn_raises Sim.quiet = false
  /\ _currentmode (set_currentmode 5 Sim.holding) <> SCRAP_SELECTION
  /\ _scrap_get_scrap Sim.adapter Sim.quiet "text/plain"
       (set_currentmode 5 Sim.holding, Sim.fresh)
     = (Return (PyBytes ["h"%byte; "i"%byte]),
        (set_currentmode 5 Sim.holding, Sim.fresh))
  /\ _scrap_get_types Sim.adapter Sim.quiet
       (set_currentmode 5 Sim.holding, Sim.fresh)
     = (Return (PyList ["text/plain"]),
        (set_currentmode 5 Sim.holding, Sim.fresh)).
Proof.
  split; [reflexivity|]. split; [reflexivity|]. split; [reflexivity|].
  split; [discriminate|].
  destruct (non_selection_mode_uses_clipdata Sim.adapter Sim.quiet
              "text/plain" [] (set_currentmode 5 Sim.holding) Sim.fresh
              eq_refl eq_refl) as (_ & Hget & Htypes & _);
    [discriminate|].
  split; [apply Hget | apply Htypes]; reflexivity.
Defined.

(** ** Properties of the text functions *)

Lemma get_text_unfold (A : Adapter) (rt : Runtime) (s : ScrapState)
    (p : platform A) :
  _scrap_get_text A rt (s, p)
  = (if String.eqb (SDL_GetClipboardText A p) "" && SDL_HasClipboardText A p
     then Raise (SDLError (SDL_GetError A p))
     else if utf8_valid rt (SDL_GetClipboardText A p)
          then Return (PyUnicode (SDL_GetClipboardText A p))
          else Raise UnicodeDecodeError,
     (s, p)).
Proof.
  run_call. unfold PyUnicode_FromString.
  destruct (_ && _); [reflexivity|].
  destruct (utf8_valid rt _); reflexivity.
Qed.

(** C8, as stated, fails: with the byte 0xFF as clipboard text the probe
    and the read do not disagree (the read is not empty), yet get_text
    does not return the text read: decoding it fails and the call raises
    the decoder's exception. *)
Lemma get_text_undecodable_text_raises :
  ~ (SDL_HasClipboardText Sim.adapter Sim.garbled = true
     /\ SDL_GetClipboardText Sim.adapter Sim.garbled = "")
  /\ fst (_scrap_get_text Sim.adapter Sim.strict (initial_state, Sim.garbled))
     = Raise UnicodeDecodeError
  /\ fst (_scrap_get_text Sim.adapter Sim.strict (initial_state, Sim.garbled))
     <> Return (PyUnicode (SDL_GetClipboardText Sim.adapter Sim.garbled)).
Proof.
  split; [|split].
  - intros [_ H]. discriminate H.
  - reflexivity.
  - discriminate.
Qed.

(** C8, amended.  get_text raises the platform error exactly when the
    "has text" probe answers yes and the text read is empty.  In every
    other case it returns the text read, raising nothing, when that text
    decodes as UTF-8, and raises the decoder's exception, not the
    platform error, when it does not.  Two platform states whose read is
    empty and whose probe answers no give the same result, which is the
    empty string (the empty string decoding).  The call changes neither
    the module nor the platform. *)
Theorem get_text_error_iff_probe_disagrees
    (A : Adapter) (rt : Runtime) (s : ScrapState) (p : platform A) :
  ((exists msg, fst (_scrap_get_text A rt (s, p)) = Raise (SDLError msg))
   <-> SDL_HasClipboardText A p = true /\ SDL_GetClipboardText A p = "")
  /\ (~ (SDL_HasClipboardText A p = true /\ SDL_GetClipboardText A p = "") ->
      (utf8_valid rt (SDL_GetClipboardText A p) = true ->
       _scrap_get_text A rt (s, p)
       = (Return (PyUnicode (SDL_GetClipboardText A p)), (s, p)))
      /\ (utf8_valid rt (SDL_GetClipboardText A p) = false ->
          _scrap_get_text A rt (s, p) = (Raise UnicodeDecodeError, (s, p))))
  /\ (forall q : platform A,
        SDL_GetClipboardText A p = "" -> SDL_HasClipboardText A p = false ->
        SDL_GetClipboardText A q = "" -> SDL_HasClipboardText A q = false ->
        fst (_scrap_get_text A rt (s, p)) = fst (_scrap_get_text A rt (s, q))
        /\ (utf8_valid rt "" = true ->
            fst (_scrap_get_text A rt (s, p)) = Return (PyUnicode "")))
  /\ snd (_scrap_get_text A rt (s, p)) = (s, p).
Proof.
  rewrite !get_text_unfold. cbn [fst snd].
  split; [split|split; [|split]].
  - intros [msg H].
    destruct (String.eqb_spec (SDL_GetClipboardText A p) "") as [E|E];
      destruct (SDL_HasClipboardText A p); cbn in H; auto;
      destruct (utf8_valid rt _); discriminate.
  - intros [Hh He]. rewrite He, Hh. cbn. eauto.
  - intros Hn.
    assert (E : String.eqb (SDL_GetClipboardText A p) ""
                && SDL_HasClipboardText A p = false).
    { destruct (String.eqb_spec (SDL_GetClipboardText A p) "") as [E|E];
        destruct (SDL_HasClipboardText A p); cbn; auto.
      exfalso. apply Hn. auto. }
    rewrite E. split; intros Hu; now rewrite Hu.
  - intros q Ep Hp Eq Hq. rewrite get_text_unfold. cbn [fst].
    rewrite Ep, Hp, Eq, Hq. cbn. split; [reflexivity|].
    intros Hu. now rewrite Hu.
  - reflexivity.
Qed.

Lemma get_text_error_iff_probe_disagrees_witness :
  _scrap_get_text Sim.adapter Sim.strict (initial_state, Sim.taken)
  = (Return (PyUnicode "x"), (initial_state, Sim.taken))
  /\ _scrap_get_text Sim.adapter Sim.strict (initial_state, Sim.garbled)
     = (Raise UnicodeDecodeError, (initial_state, Sim.garbled))
  /\ fst (_scrap_get_text Sim.adapter Sim.strict (initial_state, Sim.fresh))
     = fst (_scrap_get_text Sim.adapter Sim.strict
              (initial_state, Sim.with_text "" Sim.taken))
  /\ fst (_scrap_get_text Sim.adapter Sim.strict (initial_state, Sim.fresh))
     = Return (PyUnicode "")
  /\ exists msg,
       fst (_scrap_get_text Sim.adapter Sim.strict
              (initial_state, Sim.failed_read)) = Raise (SDLError msg).
Proof.
  destruct (get_text_error_iff_probe_disagrees Sim.adapter Sim.strict
              initial_state Sim.taken) as (_ & Hread & _).
  destruct (get_text_error_iff_probe_disagrees Sim.adapter Sim.strict
              initial_state Sim.garbled) as (_ & Hgarbled & _).
  destruct (get_text_error_iff_probe_disagrees Sim.adapter Sim.strict
              initial_state Sim.fresh) as (_ & _ & Hempty & _).
  destruct (get_text_error_iff_probe_disagrees Sim.adapter Sim.strict
              initial_state Sim.failed_read) as ([_ Hfail] & _).
  split; [|split; [|split; [|split]]].
  - apply Hread; [|reflexivity]. intros [_ H]. discriminate H.
  - apply Hgarbled; [|reflexivity]. intros [_ H]. discriminate H.
  - apply (Hempty (Sim.with_text "" Sim.taken)); reflexivity.
  - apply (Hempty (Sim.with_text "" Sim.taken)); reflexivity.
  - apply Hfail. split; reflexivity.
Defined.

(** ** A session on the simulated platform

    init(); put("text/plain", b"hi"); get("text/plain"); get_types(), then
    the same reads after another application took the clipboard. *)

Example session_init :
  _scrap_init Sim.adapter Sim.quiet (initial_state, Sim.fresh)
  = (Return Py_None, (Sim.ready, Sim.fresh)).
Proof. reflexivity. Qed.

Example session_put :
  snd (_scrap_put_scrap Sim.adapter Sim.quiet "text/plain" ["h"%byte; "i"%byte]
         (Sim.ready, Sim.fresh))
  = (Sim.holding, Sim.with_payload "text/plain" ["h"%byte; "i"%byte] Sim.fresh).
Proof. reflexivity. Qed.

Example session_get_types_owned :
  fst (_scrap_get_types Sim.adapter Sim.quiet (Sim.holding, Sim.fresh))
  = Return (PyList ["text/plain"]).
Proof. reflexivity. Qed.

Example session_get_missing :
  fst (_scrap_get_scrap Sim.adapter Sim.quiet "image/png" (Sim.holding, Sim.fresh))
  = Return Py_None.
Proof. reflexivity. Qed.

Example session_get_after_loss :
  fst (_scrap_get_scrap Sim.adapter Sim.quiet "text/plain" (Sim.holding, Sim.taken))
  = Return (PyBytes ["x"%byte]).
Proof. reflexivity. Qed.

Example session_set_mode_out_of_range :
  _scrap_set_mode Sim.adapter Sim.quiet (2 ^ 31) (Sim.ready, Sim.fresh)
  = (Raise OverflowError, (Sim.ready, Sim.fresh)).
Proof. reflexivity. Qed.

Example session_put_text_then_get_text :
  fst (_scrap_get_text Sim.adapter Sim.quiet
         (snd (_scrap_put_text Sim.adapter Sim.quiet "hello"
                 (initial_state, Sim.fresh))))
  = Return (PyUnicode "hello").
Proof. reflexivity. Qed.

Example decode_types_rejects_non_ascii :
  decode_types ["text/plain"; String (ascii_of_nat 233) ""] [] = None.
Proof. reflexivity. Qed.

(** * Further properties of the module *)

(** ** get_types after the clipboard was lost *)

Section TypeListing.

Lemma decode_types_ascii (types lst : list string) :
  forallb is_ascii types = true -> decode_types types lst = Some (lst ++ types)%list.
Proof.
  revert lst. induction types as [|t types IH]; cbn; intros lst H.
  - now rewrite app_nil_r.
  - apply andb_true_iff in H as [Ht Hr].
    unfold PyUnicode_DecodeASCII. rewrite Ht, IH by exact Hr.
    now rewrite <- app_assoc.
Qed.

Lemma decode_types_non_ascii (types lst : list string) :
  forallb is_ascii types = false -> decode_types types lst = None.
Proof.
  revert lst. induction types as [|t types IH]; cbn; intros lst H.
  - discriminate.
  - unfold PyUnicode_DecodeASCII.
    destruct (is_ascii t); cbn in H; [now apply IH | reflexivity].
Qed.

End TypeListing.

(** X1.  On an initialized module whose clipboard went to another
    application (the deprecation warning not escalated), get_types asks
    the adapter and does not look at either cache: it returns the empty
    list when the adapter has no type array, the adapter's names in the
    adapter's order when all of them are ASCII, and the decoder's
    exception, with no partial list, as soon as one name is not. *)
Theorem get_types_after_loss
    (A : Adapter) (rt : Runtime) (s : ScrapState) (p : platform A) :
  initialized s ->
  warn_raises rt = false ->
  scrap_lost A p <> 0 ->
  (scrap_get_types A p = None ->
   _scrap_get_types A rt (s, p) = (Return (PyList []), (s, p)))
  /\ (forall types,
        scrap_get_types A p = Some types ->
        forallb is_ascii types = true ->
        _scrap_get_types A rt (s, p) = (Return (PyList types), (s, p)))
  /\ (forall types,
        scrap_get_types A p = Some types ->
        forallb is_ascii types = false ->
        _scrap_get_types A rt (s, p) = (Raise UnicodeDecodeError, (s, p))).
Proof.
  unfold initialized. intros Hi Hw Hl.
  apply Z.eqb_neq in Hl.
  repeat split; intros; run_call;
    rewrite Hw; cbn; rewrite Hi; cbn;
    unfold truthy at 1; rewrite Hl; cbn.
  - now rewrite H.
  - rewrite H, decode_types_ascii by assumption. reflexivity.
  - rewrite H, decode_types_non_ascii by assumption. reflexivity.
Qed.

Lemma get_types_after_loss_witness :
  initialized Sim.holding /\ warn_raises Sim.quiet = false
  /\ scrap_lost Sim.adapter Sim.taken <> 0
  /\ _scrap_get_types Sim.adapter Sim.quiet (Sim.holding, Sim.taken)
     = (Return (PyList ["text/plain"]), (Sim.holding, Sim.taken)).
Proof.
  split; [reflexivity|]. split; [reflexivity|]. split; [discriminate|].
  destruct (get_types_after_loss Sim.adapter Sim.quiet Sim.holding Sim.taken
              eq_refl eq_refl) as (_ & Hascii & _); [discriminate|].
  apply Hascii; reflexivity.
Defined.

(** ** What a call can and cannot touch *)


(** X3.  contains and the three text functions do not depend on the
    module state: with the same runtime and platform they give the same
    result and leave the same platform behind, whatever the
    initialization flag, the stored mode and the caches are. *)
Theorem platform_only_calls
    (A : Adapter) (rt : Runtime) (s s' : ScrapState) (p : platform A) :
  (forall type,
     fst (_scrap_contains A rt type (s, p))
     = fst (_scrap_contains A rt type (s', p)))
  /\ fst (_scrap_get_text A rt (s, p)) = fst (_scrap_get_text A rt (s', p))
  /\ fst (_scrap_has_text A rt (s, p)) = fst (_scrap_has_text A rt (s', p))
  /\ (forall text,
        fst (_scrap_put_text A rt text (s, p))
        = fst (_scrap_put_text A rt text (s', p))
        /\ snd (snd (_scrap_put_text A rt text (s, p)))
           = snd (snd (_scrap_put_text A rt text (s', p)))).
Proof.
  repeat split; intros; run_call; split_tests; reflexivity.
Qed.

(** X4.  When the runtime escalates the deprecation warning, none of the
    eight deprecated functions has any effect: each of them raises, and
    neither the module state nor the platform changes; in particular init
    does not reach the adapter's init and put does not reach the
    adapter's put. *)
Theorem escalated_warning_blocks_every_effect
    (A : Adapter) (rt : Runtime) (w : World A) :
  warn_raises rt = true ->
  forall c,
    c <> get_text -> c <> has_text -> (forall text, c <> put_text text) ->
    returns (fst (scrap_builtins A rt c w)) = false
    /\ snd (scrap_builtins A rt c w) = w.
Proof.
  intros Hw c H1 H2 H3. destruct w as [s p].
  destruct c; cbn [scrap_builtins]; try congruence;
    try (exfalso; eapply H3; reflexivity);
    run_call; rewrite ?Hw; split_tests; cbn;
    rewrite ?Hw; cbn; auto; try congruence.
Qed.

Lemma escalated_warning_blocks_every_effect_witness :
  returns (fst (_scrap_put_scrap Sim.adapter
                  {| warn_raises := true; utf8_valid := fun _ => true;
                     getitem_error := fun _ => false |}
                  "text/plain" ["h"%byte; "i"%byte] (Sim.ready, Sim.fresh)))
  = false
  /\ snd (_scrap_put_scrap Sim.adapter
            {| warn_raises := true; utf8_valid := fun _ => true;
               getitem_error := fun _ => false |}
            "text/plain" ["h"%byte; "i"%byte] (Sim.ready, Sim.fresh))
     = (Sim.ready, Sim.fresh).
Proof.
  apply (escalated_warning_blocks_every_effect Sim.adapter
           {| warn_raises := true; utf8_valid := fun _ => true;
              getitem_error := fun _ => false |}
           (Sim.ready, Sim.fresh) eq_refl
           (put "text/plain" ["h"%byte; "i"%byte]));
    discriminate.
Defined.

(** X5.  The order of the two gates differs between the functions.  On a
    module that is not initialized, under a runtime that escalates the
    deprecation warning, lost and set_mode fail with the "not
    initialized" condition (they check first), while get_types, get and
    put fail with the deprecation warning (they warn first). *)
Theorem gate_order
    (A : Adapter) (rt : Runtime) (s : ScrapState) (p : platform A) :
  truthy (_scrapinitialized s) = false ->
  warn_raises rt = true ->
  fst (_scrap_lost_scrap A rt (s, p)) = Raise ScrapNotInitialized
  /\ (forall m, fst (_scrap_set_mode A rt m (s, p)) = Raise ScrapNotInitialized)
  /\ (exists msg,
        fst (_scrap_get_types A rt (s, p)) = Raise (DeprecationWarning msg))
  /\ (forall type, exists msg,
        fst (_scrap_get_scrap A rt type (s, p)) = Raise (DeprecationWarning msg))
  /\ (forall type data, exists msg,
        fst (_scrap_put_scrap A rt type data (s, p))
        = Raise (DeprecationWarning msg)).
Proof.
  intros Hi Hw.
  repeat split; intros; try eexists; run_call; rewrite ?Hi, ?Hw; cbn;
    rewrite ?Hi, ?Hw; reflexivity.
Qed.

Lemma gate_order_witness :
  truthy (_scrapinitialized initial_state) = false
  /\ fst (_scrap_lost_scrap Sim.adapter
            {| warn_raises := true; utf8_valid := fun _ => true;
               getitem_error := fun _ => false |}
            (initial_state, Sim.fresh)) = Raise ScrapNotInitialized.
Proof.
  split; [reflexivity|].
  apply (gate_order Sim.adapter
           {| warn_raises := true; utf8_valid := fun _ => true;
              getitem_error := fun _ => false |}
           initial_state Sim.fresh); reflexivity.
Defined.

(** ** The life cycle of the module *)

Section LifeCycle.

Variable A : Adapter.

(** A call leaves the flag as it was or sets it to 1. *)
Lemma flag_after_call rt c w :
  _scrapinitialized (fst (snd (scrap_builtins A rt c w)))
  = _scrapinitialized (fst w)
  \/ _scrapinitialized (fst (snd (scrap_builtins A rt c w))) = 1.
Proof.
  destruct w as [s p].
  destruct c; cbn [scrap_builtins]; run_call; split_tests; auto.
Qed.

Lemma evolves_keeps_initialized w w' :
  evolves A w w' -> initialized (fst w) -> initialized (fst w').
Proof.
  unfold initialized.
  induction 1 as [| w' rt c Hev IH | s p p' Hev IH]; intros Hi; auto.
  destruct (flag_after_call rt c w') as [E | E]; rewrite E; auto.
Qed.

Lemma init_returns_initialized rt w r :
  fst (_scrap_init A rt w) = Return r ->
  initialized (fst (snd (_scrap_init A rt w))).
Proof.
  destruct w as [s p]. unfold initialized. run_call.
  split_tests; cbn; intros; try discriminate; reflexivity.
Qed.

(** The selection cache is written by put under SCRAP_SELECTION and by
    the first init() only. *)
Lemma selection_cache_after_call rt c w :
  _currentmode (fst w) <> SCRAP_SELECTION ->
  _selectiondata (fst w) = PyDict_New ->
  _selectiondata (fst (snd (scrap_builtins A rt c w))) = PyDict_New.
Proof.
  destruct w as [s p]. cbn [fst]. intros Hm Hd.
  apply Z.eqb_neq in Hm.
  destruct c; cbn [scrap_builtins]; run_call;
    unfold mode_is_selection; rewrite ?Hm; split_tests; cbn; auto;
    rewrite ?Hm; cbn; auto; congruence.
Qed.

Lemma PyDict_SetItemString_keys_NoDup rt d k v :
  NoDup (keys d) -> NoDup (keys (PyDict_SetItemString rt d k v)).
Proof.
  unfold PyDict_SetItemString, PyUnicode_FromString, keys.
  destruct (utf8_valid rt k); [apply PyDict_SetItem_keys_NoDup | auto].
Qed.

Lemma cache_keys_after_call rt c w :
  NoDup (keys (_clipdata (fst w))) /\ NoDup (keys (_selectiondata (fst w))) ->
  NoDup (keys (_clipdata (fst (snd (scrap_builtins A rt c w)))))
  /\ NoDup (keys (_selectiondata (fst (snd (scrap_builtins A rt c w))))).
Proof.
  destruct w as [s p]. cbn [fst]. intros [Hc Hs].
  destruct c; cbn [scrap_builtins]; run_call; split_tests; cbn;
    auto using PyDict_SetItemString_keys_NoDup, NoDup_nil.
Qed.

End LifeCycle.

(** X6.  Initialization is one-way.  Once an init() has returned
    normally, the module is initialized in every later world, whatever
    calls follow and however the platform changes, and no call fails with
    the "not initialized" condition any more. *)
Theorem initialized_is_permanent
    (A : Adapter) (rt0 : Runtime) (w0 w : World A) (r : PyObject) :
  fst (_scrap_init A rt0 w0) = Return r ->
  evolves A (snd (_scrap_init A rt0 w0)) w ->
  initialized (fst w)
  /\ forall rt c, fst (scrap_builtins A rt c w) <> Raise ScrapNotInitialized.
Proof.
  intros Hr Hev.
  assert (Hi : initialized (fst w)).
  { eapply evolves_keeps_initialized; [exact Hev|].
    eapply init_returns_initialized; exact Hr. }
  split; [exact Hi|].
  intros rt c. destruct w as [s p]. unfold initialized in Hi. cbn [fst] in Hi.
  destruct c; cbn [scrap_builtins]; run_call; rewrite ?Hi;
    split_tests; cbn; rewrite ?Hi; cbn; try discriminate;
    split_tests; discriminate.
Qed.

Lemma initialized_is_permanent_witness :
  fst (_scrap_init Sim.adapter Sim.quiet (initial_state, Sim.fresh))
  = Return Py_None
  /\ initialized
       (fst (snd (_scrap_set_mode Sim.adapter Sim.quiet 5
                    (snd (_scrap_init Sim.adapter Sim.quiet
                            (initial_state, Sim.fresh)))))).
Proof.
  split; [reflexivity|].
  apply (initialized_is_permanent Sim.adapter Sim.quiet
           (initial_state, Sim.fresh) _ Py_None eq_refl).
  apply (evolves_call Sim.adapter _ _ Sim.quiet (set_mode 5)).
  apply evolves_here.
Defined.

(** X7.  get_init (the deprecation warning not escalated) returns False
    as long as no init() has returned normally, and True in every world
    that follows a normally returning init(); it changes nothing. *)
Theorem get_init_reports_the_life_cycle
    (A : Adapter) (rt : Runtime) (w : World A) :
  warn_raises rt = false ->
  (before_init A w -> _scrap_get_init A rt w = (Return (Py_Bool false), w))
  /\ (forall rt0 w0 r,
        fst (_scrap_init A rt0 w0) = Return r ->
        evolves A (snd (_scrap_init A rt0 w0)) w ->
        _scrap_get_init A rt w = (Return (Py_Bool true), w)).
Proof.
  intros Hw. split.
  - intros Hb. apply before_init_not_initialized in Hb.
    destruct w as [s p]. cbn [fst] in Hb. run_call. rewrite Hw; cbn. now rewrite Hb.
  - intros rt0 w0 r Hr Hev.
    assert (Hi : initialized (fst w)).
    { eapply evolves_keeps_initialized; [exact Hev|].
      eapply init_returns_initialized; exact Hr. }
    destruct w as [s p]. unfold initialized in Hi. cbn [fst] in Hi.
    run_call. rewrite Hw; cbn. now rewrite Hi.
Qed.

Lemma get_init_reports_the_life_cycle_witness :
  warn_raises Sim.quiet = false
  /\ _scrap_get_init Sim.adapter Sim.quiet (initial_state, Sim.fresh)
     = (Return (Py_Bool false), (initial_state, Sim.fresh))
  /\ _scrap_get_init Sim.adapter Sim.quiet (Sim.ready, Sim.fresh)
     = (Return (Py_Bool true), (Sim.ready, Sim.fresh)).
Proof.
  split; [reflexivity|].
  destruct (get_init_reports_the_life_cycle Sim.adapter Sim.quiet
              (initial_state, Sim.fresh) eq_refl) as [Hbefore _].
  destruct (get_init_reports_the_life_cycle Sim.adapter Sim.quiet
              (Sim.ready, Sim.fresh) eq_refl) as [_ Hafter].
  split.
  - apply Hbefore. constructor.
  - apply (Hafter Sim.quiet (initial_state, Sim.fresh) Py_None eq_refl).
    apply evolves_here.
Defined.

(** X8.  The three ways init can fail.  With the video subsystem down it
    raises the video error, and with the deprecation warning escalated it
    raises the warning; in both cases nothing changes and the adapter is
    not reached.  When the adapter's init reports failure, init raises
    SDLError with the platform's error text; a module that was not
    initialized stays so, although its two caches have already been
    replaced by empty dictionaries. *)
Theorem init_failure_modes
    (A : Adapter) (rt : Runtime) (s : ScrapState) (p : platform A) :
  (SDL_WasInit_video A p = false ->
   _scrap_init A rt (s, p) = (Raise VideoNotInitialized, (s, p)))
  /\ (SDL_WasInit_video A p = true ->
      warn_raises rt = true ->
      returns (fst (_scrap_init A rt (s, p))) = false
      /\ snd (_scrap_init A rt (s, p)) = (s, p))
  /\ (SDL_WasInit_video A p = true ->
      warn_raises rt = false ->
      fst (scrap_init A p) = 0 ->
      _scrap_init A rt (s, p)
      = (Raise (SDLError (SDL_GetError A (snd (scrap_init A p)))),
         (if truthy (_scrapinitialized s) then s
          else set_selectiondata PyDict_New (set_clipdata PyDict_New s),
          snd (scrap_init A p)))).
Proof.
  repeat split; intros; run_call;
    repeat match goal with H : _ = _ |- _ => rewrite H; cbn end;
    try reflexivity.
  destruct (truthy (_scrapinitialized s)); cbn;
    destruct (scrap_init A p) as [r p1]; cbn in *; subst r; reflexivity.
Qed.

Lemma init_failure_modes_witness :
  _scrap_init Sim.adapter Sim.quiet
    (initial_state,
     {| Sim.video := false; Sim.init_result := 1; Sim.put_result := 1;
        Sim.settext_result := 0; Sim.lost := 0; Sim.payloads := [];
        Sim.has_text := false; Sim.text := "" |})
  = (Raise VideoNotInitialized,
     (initial_state,
      {| Sim.video := false; Sim.init_result := 1; Sim.put_result := 1;
         Sim.settext_result := 0; Sim.lost := 0; Sim.payloads := [];
         Sim.has_text := false; Sim.text := "" |})).
Proof.
  apply (init_failure_modes Sim.adapter Sim.quiet initial_state
           {| Sim.video := false; Sim.init_result := 1; Sim.put_result := 1;
              Sim.settext_result := 0; Sim.lost := 0; Sim.payloads := [];
              Sim.has_text := false; Sim.text := "" |}).
  reflexivity.
Defined.

(** X9.  The first init().  On a module that is not initialized, with the
    video subsystem up, the deprecation warning not escalated and the
    adapter's init reporting success, init returns None and leaves the
    module initialized with two empty caches and the stored mode it had. *)
Theorem first_init_succeeds
    (A : Adapter) (rt : Runtime) (s : ScrapState) (p : platform A) :
  truthy (_scrapinitialized s) = false ->
  SDL_WasInit_video A p = true ->
  warn_raises rt = false ->
  fst (scrap_init A p) <> 0 ->
  _scrap_init A rt (s, p)
  = (Return Py_None,
     ({| _scrapinitialized := 1; _currentmode := _currentmode s;
         _selectiondata := PyDict_New; _clipdata := PyDict_New |},
      snd (scrap_init A p))).
Proof.
  intros Hi Hv Hw Hr. run_call.
  rewrite Hv; cbn. rewrite Hw; cbn. rewrite Hi; cbn.
  destruct (scrap_init A p) as [r p1]. cbn in *.
  apply Z.eqb_neq in Hr. unfold truthy. rewrite Hr. cbn. rewrite Hr.
  reflexivity.
Qed.

Lemma first_init_succeeds_witness :
  truthy (_scrapinitialized initial_state) = false
  /\ _scrap_init Sim.adapter Sim.quiet (initial_state, Sim.fresh)
     = (Return Py_None, (Sim.ready, Sim.fresh)).
Proof.
  split; [reflexivity|].
  apply (first_init_succeeds Sim.adapter Sim.quiet initial_state Sim.fresh);
    [reflexivity | reflexivity | reflexivity | discriminate].
Defined.

(** ** Invariants of the caches *)

Section CacheInvariants.

Variable A : Adapter.

Lemma reachable_cache_keys w :
  reachable A w ->
  NoDup (keys (_clipdata (fst w))) /\ NoDup (keys (_selectiondata (fst w))).
Proof.
  induction 1 as [p | w rt c Hw IH | s p p' Hw IH]; cbn [fst] in *.
  - split; constructor.
  - now apply cache_keys_after_call.
  - exact IH.
Qed.

Lemma PyDict_SetItem_keys_present d k v v0 :
  PyDict_GetItem d k = Some v0 -> keys (PyDict_SetItem d k v) = keys d.
Proof.
  unfold keys. induction d as [|[k' v'] d IH]; cbn; [discriminate|].
  destruct (String.eqb k k'); cbn; [reflexivity|].
  intros H. now rewrite IH.
Qed.

Lemma PyDict_SetItem_keys_absent d k v :
  PyDict_GetItem d k = None -> keys (PyDict_SetItem d k v) = (keys d ++ [k])%list.
Proof.
  unfold keys. induction d as [|[k' v'] d IH]; cbn; [reflexivity|].
  destruct (String.eqb k k'); cbn; [discriminate|].
  intros H. now rewrite IH.
Qed.

End CacheInvariants.

(** X10.  The selection buffer is dead storage: in every world the module
    can reach from its loaded state, the stored mode is not
    SCRAP_SELECTION and the selection cache is empty, so no put is ever
    recorded in it. *)
Theorem selection_cache_stays_empty (A : Adapter) (w : World A) :
  reachable A w ->
  _currentmode (fst w) <> SCRAP_SELECTION
  /\ _selectiondata (fst w) = PyDict_New.
Proof.
  induction 1 as [p | w rt c Hw [IHm IHd] | s p p' Hw IH]; cbn [fst] in *.
  - split; [discriminate | reflexivity].
  - split; [now apply mode_after_call | now apply selection_cache_after_call].
  - exact IH.
Qed.

Lemma selection_cache_stays_empty_witness :
  reachable Sim.adapter
    (snd (_scrap_put_scrap Sim.adapter Sim.quiet "text/plain" ["h"%byte]
            (snd (_scrap_set_mode Sim.adapter Sim.quiet SCRAP_SELECTION
                    (snd (_scrap_init Sim.adapter Sim.quiet
                            (initial_state, Sim.fresh)))))))
  /\ _selectiondata
       (fst (snd (_scrap_put_scrap Sim.adapter Sim.quiet "text/plain"
                    ["h"%byte]
                    (snd (_scrap_set_mode Sim.adapter Sim.quiet SCRAP_SELECTION
                            (snd (_scrap_init Sim.adapter Sim.quiet
                                    (initial_state, Sim.fresh))))))))
     = PyDict_New.
Proof.
  assert (R : reachable Sim.adapter
                (snd (_scrap_put_scrap Sim.adapter Sim.quiet "text/plain"
                        ["h"%byte]
                        (snd (_scrap_set_mode Sim.adapter Sim.quiet
                                SCRAP_SELECTION
                                (snd (_scrap_init Sim.adapter Sim.quiet
                                        (initial_state, Sim.fresh))))))))
    by exact (reach_call Sim.adapter _ Sim.quiet (put "text/plain" ["h"%byte])
                (reach_call Sim.adapter _ Sim.quiet (set_mode SCRAP_SELECTION)
                   (reach_call Sim.adapter _ Sim.quiet init
                      (reach_loaded Sim.adapter Sim.fresh)))).
  split; [exact R|].
  exact (proj2 (selection_cache_stays_empty Sim.adapter _ R)).
Defined.

(** X11.  While the clipboard is owned, get_types never lists a type
    twice: in every reachable world of an initialized module (the
    deprecation warning not escalated) it returns a list of distinct
    names, the keys of the clipboard cache in insertion order. *)
Theorem get_types_lists_each_type_once
    (A : Adapter) (rt : Runtime) (w : World A) :
  reachable A w ->
  initialized (fst w) ->
  warn_raises rt = false ->
  scrap_lost A (snd w) = 0 ->
  _scrap_get_types A rt w = (Return (PyList (keys (_clipdata (fst w)))), w)
  /\ NoDup (keys (_clipdata (fst w))).
Proof.
  intros Hr Hi Hw Hl. destruct w as [s p]. cbn [fst snd] in *.
  split; [|exact (proj1 (reachable_cache_keys A _ Hr))].
  rewrite get_types_owned by assumption.
  apply mode_never_selection, Z.eqb_neq in Hr. cbn [fst] in Hr.
  unfold active_cache, mode_is_selection. now rewrite Hr.
Qed.

Lemma get_types_lists_each_type_once_witness :
  reachable Sim.adapter
    (snd (_scrap_put_scrap Sim.adapter Sim.quiet "text/plain" ["h"%byte; "i"%byte]
            (snd (_scrap_init Sim.adapter Sim.quiet (initial_state, Sim.fresh)))))
  /\ fst (_scrap_get_types Sim.adapter Sim.quiet
            (snd (_scrap_put_scrap Sim.adapter Sim.quiet "text/plain"
                    ["h"%byte; "i"%byte]
                    (snd (_scrap_init Sim.adapter Sim.quiet
                            (initial_state, Sim.fresh))))))
     = Return (PyList ["text/plain"]).
Proof.
  assert (R : reachable Sim.adapter
                (snd (_scrap_put_scrap Sim.adapter Sim.quiet "text/plain"
                        ["h"%byte; "i"%byte]
                        (snd (_scrap_init Sim.adapter Sim.quiet
                                (initial_state, Sim.fresh))))))
    by exact (reach_call Sim.adapter _ Sim.quiet
                (put "text/plain" ["h"%byte; "i"%byte])
                (reach_call Sim.adapter _ Sim.quiet init
                   (reach_loaded Sim.adapter Sim.fresh))).
  split; [exact R|].
  exact (f_equal fst
           (proj1 (get_types_lists_each_type_once Sim.adapter Sim.quiet _ R
                     eq_refl eq_refl eq_refl))).
Defined.

(** ** How put composes with the readers *)

Section PutComposition.

Variable A : Adapter.

(** The state a normally returning put leaves. *)
Lemma put_scrap_result rt type data s p r s' p' :
  _scrap_put_scrap A rt type data (s, p) = (Return r, (s', p')) ->
  initialized s
  /\ _scrapinitialized s' = _scrapinitialized s
  /\ _currentmode s' = _currentmode s
  /\ active_cache s' = PyDict_SetItemString rt (active_cache s) type data.
Proof.
  intros Hput.
  destruct (put_scrap_returns A _ _ _ _ _ _ _ Hput) as (Hi & Hw & Hr).
  rewrite (put_scrap_accepted A rt type data s p Hi Hw Hr) in Hput.
  inversion Hput; subst; clear Hput.
  split; [exact Hi|]. unfold active_cache.
  destruct (mode_is_selection (_currentmode s)) eqn:Em; cbn; rewrite Em; auto.
Qed.

(** What get returns is decided by the flag, the stored mode and the
    entry of the active cache for the type. *)
Lemma get_scrap_depends_on rt type s s' p :
  _scrapinitialized s' = _scrapinitialized s ->
  _currentmode s' = _currentmode s ->
  PyDict_GetItem (active_cache s') type = PyDict_GetItem (active_cache s) type ->
  fst (_scrap_get_scrap A rt type (s', p)) = fst (_scrap_get_scrap A rt type (s, p)).
Proof.
  unfold active_cache.
  destruct s as [f m sd cd], s' as [f' m' sd' cd']. cbn [_scrapinitialized
    _currentmode _selectiondata _clipdata]. intros -> -> Hd. run_call.
  unfold PyDict_GetItemWithError, PyUnicode_FromString.
  destruct (warn_raises rt); cbn; [reflexivity|].
  destruct (truthy f); cbn; [|reflexivity].
  destruct (negb (truthy (scrap_lost A p))); cbn; [|split_tests; reflexivity].
  destruct (utf8_valid rt type); cbn; [|reflexivity].
  destruct (getitem_error rt type); cbn; [reflexivity|].
  rewrite Hd. split_tests; reflexivity.
Qed.

End PutComposition.

(** X12.  A put of one type does not disturb what get returns for any
    other type: after put(type, data) has returned normally, get(other)
    gives, for every other type, runtime and platform state, the result
    it would have given before the put. *)
Theorem put_leaves_other_types
    (A : Adapter) (rt : Runtime) (type other : string) (data : bytes)
    (s s' : ScrapState) (p p' : platform A) (r : PyObject) :
  _scrap_put_scrap A rt type data (s, p) = (Return r, (s', p')) ->
  other <> type ->
  forall rt' q,
    fst (_scrap_get_scrap A rt' other (s', q))
    = fst (_scrap_get_scrap A rt' other (s, q)).
Proof.
  intros Hput Hne rt' q.
  destruct (put_scrap_result A _ _ _ _ _ _ _ _ Hput) as (_ & Hf & Hm & Hc).
  apply get_scrap_depends_on; auto.
  rewrite Hc. unfold PyDict_SetItemString, PyUnicode_FromString.
  destruct (utf8_valid rt type); [|reflexivity].
  apply PyDict_GetItem_SetItem_other. congruence.
Qed.

Lemma put_leaves_other_types_witness :
  _scrap_put_scrap Sim.adapter Sim.quiet "image/png" ["p"%byte]
    (Sim.holding, Sim.fresh)
  = (Return Py_None,
     (snd (_scrap_put_scrap Sim.adapter Sim.quiet "image/png" ["p"%byte]
             (Sim.holding, Sim.fresh))))
  /\ fst (_scrap_get_scrap Sim.adapter Sim.quiet "text/plain"
            (fst (snd (_scrap_put_scrap Sim.adapter Sim.quiet "image/png"
                         ["p"%byte] (Sim.holding, Sim.fresh))), Sim.fresh))
     = Return (PyBytes ["h"%byte; "i"%byte]).
Proof.
  split; [reflexivity|].
  rewrite (put_leaves_other_types Sim.adapter Sim.quiet "image/png"
             "text/plain" ["p"%byte] Sim.holding _ Sim.fresh _ Py_None
             eq_refl).
  - reflexivity.
  - discriminate.
Defined.

(** X13.  How put moves the type list.  After put(type, data) has
    returned normally (its key having been built), the keys of the active
    cache are the former keys, unchanged when the type was already cached
    and with the type appended at the end when it was not; while the
    clipboard is owned this is the list get_types returns. *)
Theorem put_appends_new_type_last
    (A : Adapter) (rt rt' : Runtime) (type : string) (data : bytes)
    (s s' : ScrapState) (p p' q : platform A) (r : PyObject) :
  _scrap_put_scrap A rt type data (s, p) = (Return r, (s', p')) ->
  utf8_valid rt type = true ->
  warn_raises rt' = false ->
  scrap_lost A q = 0 ->
  _scrap_get_types A rt' (s', q)
  = (Return (PyList (match PyDict_GetItem (active_cache s) type with
                     | Some _ => keys (active_cache s)
                     | None => keys (active_cache s) ++ [type]
                     end)), (s', q)).
Proof.
  intros Hput Hu Hw Hl.
  destruct (put_scrap_result A _ _ _ _ _ _ _ _ Hput) as (Hi & Hf & Hm & Hc).
  rewrite get_types_owned; auto.
  - rewrite Hc. unfold PyDict_SetItemString, PyUnicode_FromString, PyDict_Keys.
    rewrite Hu. fold (keys (PyDict_SetItem (active_cache s) type data)).
    destruct (PyDict_GetItem (active_cache s) type) eqn:E.
    + now rewrite (PyDict_SetItem_keys_present _ _ _ _ E).
    + now rewrite (PyDict_SetItem_keys_absent _ _ _ E).
  - unfold initialized in *. now rewrite Hf.
Qed.

Lemma put_appends_new_type_last_witness :
  fst (_scrap_get_types Sim.adapter Sim.quiet
         (fst (snd (_scrap_put_scrap Sim.adapter Sim.quiet "image/png"
                      ["p"%byte] (Sim.holding, Sim.fresh))), Sim.fresh))
  = Return (PyList ["text/plain"; "image/png"]).
Proof.
  exact (f_equal fst
           (put_appends_new_type_last Sim.adapter Sim.quiet Sim.quiet
              "image/png" ["p"%byte] Sim.holding _ Sim.fresh _ Sim.fresh
              Py_None eq_refl eq_refl eq_refl eq_refl)).
Defined.

(** X14.  has_text and get_text agree on one platform state.  has_text
    never raises; when it answers True, get_text does not return the
    empty string (it returns the text or raises); when it answers False,
    get_text does not raise the platform error. *)
Theorem has_text_and_get_text_agree
    (A : Adapter) (rt rt' : Runtime) (w : World A) :
  (exists b, fst (_scrap_has_text A rt w) = Return (Py_Bool b))
  /\ (fst (_scrap_has_text A rt w) = Return (Py_Bool true) ->
      fst (_scrap_get_text A rt' w) <> Return (PyUnicode ""))
  /\ (fst (_scrap_has_text A rt w) = Return (Py_Bool false) ->
      forall msg, fst (_scrap_get_text A rt' w) <> Raise (SDLError msg)).
Proof.
  destruct w as [s p]. rewrite get_text_unfold. cbn [fst].
  split; [|split].
  - run_call. destruct (SDL_HasClipboardText A p); cbn; eauto.
  - run_call. destruct (SDL_HasClipboardText A p); cbn; [|discriminate].
    intros _.
    destruct (String.eqb_spec (SDL_GetClipboardText A p) ""); cbn;
      [discriminate|].
    destruct (utf8_valid rt' _); [|discriminate].
    intros H. inversion H. congruence.
  - run_call. destruct (SDL_HasClipboardText A p); cbn; [discriminate|].
    intros _ msg. rewrite andb_false_r.
    destruct (utf8_valid rt' _); discriminate.
Qed.

Lemma has_text_and_get_text_agree_witness :
  fst (_scrap_has_text Sim.adapter Sim.quiet (initial_state, Sim.failed_read))
  = Return (Py_Bool true)
  /\ fst (_scrap_get_text Sim.adapter Sim.quiet (initial_state, Sim.failed_read))
     <> Return (PyUnicode "").
Proof.
  split; [reflexivity|].
  apply (has_text_and_get_text_agree Sim.adapter Sim.quiet Sim.quiet
           (initial_state, Sim.failed_read)).
  reflexivity.
Defined.

(** X15.  A set_mode call that fails before the argument is converted
    leaves the stored mode alone: that is the case on a module that is
    not initialized, under an escalated deprecation warning, and for an
    integer outside the range of a C int, which raises OverflowError.
    The whole world is unchanged in the three cases. *)
Theorem set_mode_failures_before_conversion
    (A : Adapter) (rt : Runtime) (m : Z) (s : ScrapState) (p : platform A) :
  (truthy (_scrapinitialized s) = false ->
   _scrap_set_mode A rt m (s, p) = (Raise ScrapNotInitialized, (s, p)))
  /\ (initialized s -> warn_raises rt = true ->
      returns (fst (_scrap_set_mode A rt m (s, p))) = false
      /\ snd (_scrap_set_mode A rt m (s, p)) = (s, p))
  /\ (initialized s -> warn_raises rt = false ->
      m < INT_MIN \/ INT_MAX < m ->
      _scrap_set_mode A rt m (s, p) = (Raise OverflowError, (s, p))).
Proof.
  unfold initialized. split; [|split].
  - now apply set_mode_not_initialized.
  - intros Hi Hw. run_call. rewrite Hi; cbn. rewrite Hw; cbn. auto.
  - intros Hi Hw Hm. run_call. rewrite Hi; cbn. rewrite Hw; cbn.
    assert (E : (INT_MIN <=? m) && (m <=? INT_MAX) = false).
    { apply andb_false_iff. destruct Hm; [left | right]; now apply Z.leb_gt. }
    now rewrite E.
Qed.

Lemma set_mode_failures_before_conversion_witness :
  initialized Sim.ready /\ warn_raises Sim.quiet = false
  /\ INT_MAX < 2 ^ 31
  /\ _scrap_set_mode Sim.adapter Sim.quiet (2 ^ 31) (Sim.ready, Sim.fresh)
     = (Raise OverflowError, (Sim.ready, Sim.fresh)).
Proof.
  split; [reflexivity|]. split; [reflexivity|]. split; [reflexivity|].
  apply (set_mode_failures_before_conversion Sim.adapter Sim.quiet (2 ^ 31)
           Sim.ready Sim.fresh); [reflexivity | reflexivity |].
  right. reflexivity.
Defined.

(** X16.  Cached data survives a second init().  If put(type, data)
    returned normally (its key having been built) and init() is called
    next, then, whether that init() returns or raises, a get(type) on the
    world it leaves returns the payload, provided the clipboard is still
    owned and the runtime raises nothing of its own. *)
Theorem put_survives_reinit
    (A : Adapter) (rt_put rt_init rt_get : Runtime) (type : string)
    (data : bytes) (s s' : ScrapState) (p p' q : platform A) (r : PyObject) :
  _scrap_put_scrap A rt_put type data (s, p) = (Return r, (s', p')) ->
  utf8_valid rt_put type = true ->
  warn_raises rt_get = false ->
  utf8_valid rt_get type = true ->
  getitem_error rt_get type = false ->
  scrap_lost A (snd (snd (_scrap_init A rt_init (s', q)))) = 0 ->
  _scrap_get_scrap A rt_get type (snd (_scrap_init A rt_init (s', q)))
  = (Return (PyBytes data), snd (_scrap_init A rt_init (s', q))).
Proof.
  intros Hput Hu Hw Hu' He Hl.
  destruct (put_scrap_result A _ _ _ _ _ _ _ _ Hput) as (Hi & Hf & Hm & Hc).
  assert (Hi' : initialized s') by (unfold initialized in *; now rewrite Hf).
  destruct (init_keeps_caches_when_initialized A rt_init s' q Hi') as [Kc Ks].
  assert (Hi2 : initialized (fst (snd (_scrap_init A rt_init (s', q))))).
  { unfold initialized.
    destruct (flag_after_call A rt_init init (s', q)) as [E | E];
      cbn [scrap_builtins fst] in E; rewrite E; [exact Hi' | reflexivity]. }
  assert (Hm2 : _currentmode (fst (snd (_scrap_init A rt_init (s', q))))
                = _currentmode s').
  { clear. run_call. split_tests; reflexivity. }
  destruct (_scrap_init A rt_init (s', q)) as [o [s2 q2]].
  cbn [fst snd] in *.
  rewrite get_scrap_owned by assumption. rewrite He.
  f_equal. f_equal.
  assert (Ha : active_cache s2 = active_cache s').
  { unfold active_cache. now rewrite Hm2, Kc, Ks. }
  rewrite Ha, Hc. unfold PyDict_SetItemString, PyUnicode_FromString.
  rewrite Hu. now rewrite PyDict_GetItem_SetItem_same.
Qed.

Lemma put_survives_reinit_witness :
  _scrap_put_scrap Sim.adapter Sim.quiet "text/plain" ["h"%byte; "i"%byte]
    (Sim.ready, Sim.fresh)
  = (Return Py_None,
     (Sim.holding, Sim.with_payload "text/plain" ["h"%byte; "i"%byte] Sim.fresh))
  /\ fst (_scrap_get_scrap Sim.adapter Sim.quiet "text/plain"
            (snd (_scrap_init Sim.adapter Sim.quiet (Sim.holding, Sim.fresh))))
     = Return (PyBytes ["h"%byte; "i"%byte]).
Proof.
  split; [reflexivity|].
  exact (f_equal fst
           (put_survives_reinit Sim.adapter Sim.quiet Sim.quiet Sim.quiet
              "text/plain" ["h"%byte; "i"%byte] Sim.ready Sim.holding
              Sim.fresh _ Sim.fresh Py_None
              eq_refl eq_refl eq_refl eq_refl eq_refl eq_refl)).
Defined.

(** X17.  lost tells where get and get_types read from.  When lost
    returns False, get (same platform state, the runtime raising nothing
    of its own) returns the entry of the active cache and get_types its
    keys; when lost returns True, get returns what the adapter holds. *)
Theorem lost_tells_the_source
    (A : Adapter) (rt rt' : Runtime) (type : string) (w : World A) :
  warn_raises rt' = false ->
  (fst (_scrap_lost_scrap A rt w) = Return (Py_Bool false) ->
   (utf8_valid rt' type = true -> getitem_error rt' type = false ->
    _scrap_get_scrap A rt' type w
    = (Return (option_to_py (PyDict_GetItem (active_cache (fst w)) type)), w))
   /\ _scrap_get_types A rt' w
      = (Return (PyList (keys (active_cache (fst w)))), w))
  /\ (fst (_scrap_lost_scrap A rt w) = Return (Py_Bool true) ->
      _scrap_get_scrap A rt' type w
      = (Return (option_to_py (scrap_get A type (snd w))), w)).
Proof.
  intros Hw. destruct w as [s p]. cbn [fst snd].
  assert (Hlost : forall b,
             fst (_scrap_lost_scrap A rt (s, p)) = Return (Py_Bool b) ->
             initialized s /\ truthy (scrap_lost A p) = b).
  { intros b. unfold initialized. run_call.
    destruct (truthy (_scrapinitialized s)); cbn; [|discriminate].
    destruct (warn_raises rt); cbn; [discriminate|].
    destruct (truthy (scrap_lost A p)); cbn; intros H; inversion H; auto. }
  split.
  - intros H. apply Hlost in H as [Hi Hl].
    apply negb_false_iff, Z.eqb_eq in Hl.
    split.
    + intros Hu He. rewrite get_scrap_owned by assumption. now rewrite He.
    + now rewrite get_types_owned by assumption.
  - intros H. apply Hlost in H as [Hi Hl].
    apply negb_true_iff, Z.eqb_neq in Hl.
    now apply get_scrap_lost.
Qed.

Lemma lost_tells_the_source_witness :
  warn_raises Sim.quiet = false
  /\ fst (_scrap_lost_scrap Sim.adapter Sim.quiet (Sim.holding, Sim.taken))
     = Return (Py_Bool true)
  /\ _scrap_get_scrap Sim.adapter Sim.quiet "text/plain" (Sim.holding, Sim.taken)
     = (Return (PyBytes ["x"%byte]), (Sim.holding, Sim.taken)).
Proof.
  split; [reflexivity|]. split; [reflexivity|].
  apply (lost_tells_the_source Sim.adapter Sim.quiet Sim.quiet "text/plain"
           (Sim.holding, Sim.taken)); reflexivity.
Defined.

(** X18.  Text round trip.  If the platform accepts put_text(text) and
    afterwards reads back the text it was given, then for a non-empty,
    decodable text the next get_text returns exactly that text, whatever
    the "has text" probe answers and with or without init(). *)
Theorem put_text_then_get_text
    (A : Adapter) (rt rt' : Runtime) (text : string) (w : World A) :
  fst (SDL_SetClipboardText A text (snd w)) = 0 ->
  SDL_GetClipboardText A (snd (SDL_SetClipboardText A text (snd w))) = text ->
  text <> "" ->
  utf8_valid rt' text = true ->
  fst (_scrap_put_text A rt text w) = Return Py_None
  /\ fst (_scrap_get_text A rt' (snd (_scrap_put_text A rt text w)))
     = Return (PyUnicode text).
Proof.
  destruct w as [s p]. cbn [snd]. intros Hr Hread Hne Hu.
  assert (Hput : _scrap_put_text A rt text (s, p)
                 = (Return Py_None, (s, snd (SDL_SetClipboardText A text p)))).
  { run_call. destruct (SDL_SetClipboardText A text p) as [r p1].
    cbn in *. subst r. reflexivity. }
  rewrite Hput. cbn [fst snd]. split; [reflexivity|].
  rewrite get_text_unfold. cbn [fst]. rewrite Hread, Hu.
  apply String.eqb_neq in Hne. now rewrite Hne.
Qed.

Lemma put_text_then_get_text_witness :
  fst (_scrap_get_text Sim.adapter Sim.quiet
         (snd (_scrap_put_text Sim.adapter Sim.quiet "hello"
                 (initial_state, Sim.fresh))))
  = Return (PyUnicode "hello").
Proof.
  apply (put_text_then_get_text Sim.adapter Sim.quiet Sim.quiet "hello"
           (initial_state, Sim.fresh));
    [reflexivity | reflexivity | discriminate | reflexivity].
Defined.



(** X20.  What each function returns when it returns: init, put,
    set_mode and put_text return None; get_init, contains, lost and
    has_text a bool; get_types a list of names; get either None or a
    bytes object; get_text a str. *)
Theorem returned_objects
    (A : Adapter) (rt : Runtime) (c : Call) (w : World A) (r : PyObject) :
  fst (scrap_builtins A rt c w) = Return r ->
  match c with
  | init | put _ _ | set_mode _ | put_text _ => r = Py_None
  | get_init | contains _ | lost | has_text => exists b, r = Py_Bool b
  | get_types => exists l, r = PyList l
  | get _ => r = Py_None \/ exists b, r = PyBytes b
  | get_text => exists t, r = PyUnicode t
  end.
Proof.
  destruct w as [s p].
  destruct c; cbn [scrap_builtins]; run_call;
    unfold PyUnicode_FromString, PyDict_GetItemWithError, PyDict_Keys;
    split_tests; cbn; intros H; inversion H; subst; eauto.
Qed.

Lemma returned_objects_witness :
  fst (scrap_builtins Sim.adapter Sim.quiet (get "text/plain")
         (Sim.holding, Sim.fresh))
  = Return (PyBytes ["h"%byte; "i"%byte])
  /\ (PyBytes ["h"%byte; "i"%byte] = Py_None
      \/ exists b, PyBytes ["h"%byte; "i"%byte] = PyBytes b).
Proof.
  split; [reflexivity|].
  exact (returned_objects Sim.adapter Sim.quiet (get "text/plain")
           (Sim.holding, Sim.fresh) _ eq_refl).
Defined.

(** ** The decoder on a few byte strings *)

Example utf8_ascii : utf8_wellformed (string_bytes "hello") = true.
Proof. reflexivity. Qed.

Example utf8_two_bytes : utf8_wellformed [195; 169] = true.
Proof. reflexivity. Qed.

Example utf8_three_bytes : utf8_wellformed [226; 130; 172] = true.
Proof. reflexivity. Qed.

Example utf8_four_bytes : utf8_wellformed [240; 159; 152; 128] = true.
Proof. reflexivity. Qed.

Example utf8_overlong : utf8_wellformed [192; 128] = false.
Proof. reflexivity. Qed.

Example utf8_surrogate : utf8_wellformed [237; 160; 128] = false.
Proof. reflexivity. Qed.

Example utf8_truncated : utf8_wellformed [226; 130] = false.
Proof. reflexivity. Qed.

Example utf8_byte_ff : utf8_wellformed [255] = false.
Proof. reflexivity. Qed.
